(** * Regression dashboard (app.py): window resolution, aggregation, ingestion

    A shallow embedding of the request handlers of [app.py] and of the helpers
    they share, followed by the properties of the specification.

    Conventions of the model.
    - Dates and times.  A naive [datetime] is kept as the number of
      microseconds elapsed since midnight of day 0 of the proleptic Gregorian
      ordinal count (the count of [date.toordinal], in which 0001-01-01 is
      day 1).  Its calendar
      date is the quotient by the length of a day and its time of day the
      remainder, so every integer is exactly one datetime and the year, month
      and day fields are read through the date's ordinal.  The limits
      [datetime.min] and [datetime.max] (years 1 and 9999), at which the
      arithmetic of the library raises [OverflowError], are not part of the
      model.
    - Zone.  [APP_TZ] is "Asia/Kolkata"; the zone table belongs to pytz, not
      to the application, and the model takes the zone by its offset from
      UTC, +05:30, which has been in force without a change since
      1945-10-15.
    - Text parsers of the Python library ([datetime.fromisoformat],
      [datetime.strptime], [int]) are an interface, [PyLib]; every property is
      proved for any implementation of it, and one implementation is given for
      running the handlers on concrete requests.
    - Storage.  The [runs] table is a list of rows; the surrogate key [id] is
      not kept, since the handlers only count it.
    - Payload.  An element of an ingestion batch is a JSON object whose
      values are strings.  Elements that are not objects and values that are
      numbers, null or nested, which the handler or the database refuse with
      other exceptions ([TypeError], [IntegrityError]), are not part of the
      model; no property below speaks of them. *)

From Stdlib Require Import ZArith Lia Ascii String.
From Stdlib Require OrderedTypeEx.
From stdpp Require Import gmap strings list fin_maps sorting pretty.

Local Open Scope Z_scope.

(** ** Dates and times *)

Definition US_PER_SECOND : Z := 1000000.
Definition US_PER_DAY : Z := 86400 * US_PER_SECOND.

(** A naive datetime (no [tzinfo]), see the conventions above. *)
Definition naive : Type := Z.

(** [dt.toordinal()], standing for the fields [dt.year, dt.month, dt.day]. *)
Definition toordinal (dt : naive) : Z := dt / US_PER_DAY.

(** [datetime(year, month, day, hour, minute, second)], the date given by its
    ordinal. *)
Definition mk_datetime (date hour minute second : Z) : naive :=
  date * US_PER_DAY + ((hour * 60 + minute) * 60 + second) * US_PER_SECOND.

(** [timedelta(days=n)] and [timedelta(seconds=n)], in microseconds. *)
Definition timedelta_days (n : Z) : Z := n * US_PER_DAY.
Definition timedelta_seconds (n : Z) : Z := n * US_PER_SECOND.

(** An aware datetime: wall-clock fields and the offset of its [tzinfo] from
    UTC, in microseconds. *)
Record aware : Type := Aware { wall : naive; utcoffset : Z }.

(** The absolute instant of an aware datetime, as a naive UTC datetime. *)
Definition instant (a : aware) : naive := wall a - utcoffset a.

(** [a >= b] and [a < b] on aware datetimes compare instants. *)
Definition aware_ge (a b : aware) : bool := bool_decide (instant b ≤ instant a).

(** [a + delta] and [a - delta] keep the [tzinfo] of [a]. *)
Definition aware_add (a : aware) (delta : Z) : aware :=
  Aware (wall a + delta) (utcoffset a).
Definition aware_sub (a : aware) (delta : Z) : aware :=
  Aware (wall a - delta) (utcoffset a).

(** [tz.localize(dt)] for a zone of constant offset [tz]. *)
Definition localize (tz : Z) (dt : naive) : aware := Aware dt tz.

(** [a.astimezone(tz)]: the same instant on the wall clock of [tz]. *)
Definition astimezone (tz : Z) (a : aware) : aware := Aware (instant a + tz) tz.

(** [a.replace(tzinfo=None)]. *)
Definition replace_tzinfo_none (a : aware) : naive := wall a.

(** [pytz.UTC] and [pytz.timezone(APP_TZ)]. *)
Definition UTC : Z := 0.
Definition APP_TZ : Z := (5 * 3600 + 30 * 60) * US_PER_SECOND.

(** [datetime.now(tz)] when the clock reads the UTC instant [clock]. *)
Definition datetime_now (tz : Z) (clock : naive) : aware :=
  astimezone tz (localize UTC clock).

(** ** The civil calendar (CPython's [datetime] module)

    Used to print and read dates; the window arithmetic works on ordinals. *)

Definition is_leap (year : Z) : bool :=
  (year mod 4 =? 0) && (negb (year mod 100 =? 0) || (year mod 400 =? 0)).

Definition days_before_year (year : Z) : Z :=
  let y := year - 1 in y * 365 + y / 4 - y / 100 + y / 400.

Definition DAYS_IN_MONTH : list Z := [31; 28; 31; 30; 31; 30; 31; 31; 30; 31; 30; 31].

Definition days_in_month (year month : Z) : Z :=
  if (month =? 2) && is_leap year then 29
  else nth (Z.to_nat (month - 1)) DAYS_IN_MONTH 0.

Definition DAYS_BEFORE_MONTH : list Z :=
  [0; 31; 59; 90; 120; 151; 181; 212; 243; 273; 304; 334].

Definition days_before_month (year month : Z) : Z :=
  nth (Z.to_nat (month - 1)) DAYS_BEFORE_MONTH 0
  + (if (2 <? month) && is_leap year then 1 else 0).

Definition ymd2ord (year month day : Z) : Z :=
  days_before_year year + days_before_month year month + day.

Definition DI400Y : Z := 146097.
Definition DI100Y : Z := 36524.
Definition DI4Y : Z := 1461.

Definition ord2ymd (ordinal : Z) : Z * Z * Z :=
  let n := ordinal - 1 in
  let n400 := n / DI400Y in
  let n := n mod DI400Y in
  let year := n400 * 400 + 1 in
  let n100 := n / DI100Y in
  let n := n mod DI100Y in
  let n4 := n / DI4Y in
  let n := n mod DI4Y in
  let n1 := n / 365 in
  let n := n mod 365 in
  let year := year + n100 * 100 + n4 * 4 + n1 in
  if (n1 =? 4) || (n100 =? 4) then (year - 1, 12, 31)
  else
    let leapyear := (n1 =? 3) && (negb (n4 =? 24) || (n100 =? 3)) in
    let month := Z.shiftr (n + 50) 5 in
    let preceding :=
      nth (Z.to_nat (month - 1)) DAYS_BEFORE_MONTH 0
      + (if (2 <? month) && leapyear then 1 else 0) in
    if n <? preceding then
      let month := month - 1 in
      let preceding :=
        preceding - (nth (Z.to_nat (month - 1)) DAYS_IN_MONTH 0
                     + (if (month =? 2) && leapyear then 1 else 0)) in
      (year, month, n - preceding + 1)
    else (year, month, n - preceding + 1).

(** ** Windows *)

(** The four values returned by [get_window_bounds] and by
    [resolve_window_from_request]. *)
Record bounds : Type := Bounds {
  start_local : aware;
  end_local : aware;
  start_utc : naive;
  end_utc : naive
}.

(** [get_window_bounds(ref_dt_local)]; [clock] is the instant read by
    [datetime.now] when no reference is passed. *)
Definition get_window_bounds (clock : naive) (ref_dt_local : option aware) : bounds :=
  let tz := APP_TZ in
  let now_local := default (datetime_now tz clock) ref_dt_local in
  let ten_am_today := localize tz (mk_datetime (toordinal (wall now_local)) 10 0 1) in
  let start_local :=
    if aware_ge now_local ten_am_today then ten_am_today
    else aware_sub ten_am_today (timedelta_days 1) in
  let end_local := aware_add start_local (timedelta_days 1) in
  let start_utc := replace_tzinfo_none (astimezone UTC start_local) in
  let end_utc := replace_tzinfo_none (astimezone UTC end_local) in
  Bounds start_local end_local start_utc end_utc.

(** The filter of every windowed query:
    [Run.started_at >= start_utc, Run.started_at < end_utc]. *)
Definition in_window (w : bounds) (started_at : naive) : bool :=
  bool_decide (start_utc w ≤ started_at) && bool_decide (started_at < end_utc w).

(** ** The Python library interface *)

(** What [datetime.fromisoformat] returns: a naive datetime, or an aware one
    when the text carries an offset. *)
Inductive pydatetime : Type :=
  | NaiveDT (dt : naive)
  | AwareDT (a : aware).

(** The text parsers the handlers call.  [None] stands for the [ValueError]
    each of them raises on text it does not accept. *)
Class PyLib : Type := {
  (** [datetime.fromisoformat(value)] *)
  fromisoformat : string → option pydatetime;
  (** [datetime.strptime(value, fmt)] *)
  strptime : string → string → option naive;
  (** [int(value)] on a string *)
  int_of_str : string → option Z
}.

(** Exceptions that escape a handler, and results of code that may raise. *)
Inductive exn : Type :=
  | KeyError (key : string)
  | ValueError.

Inductive result (A : Type) : Type :=
  | Ok (a : A)
  | Raise (e : exn).
Arguments Ok {A} a.
Arguments Raise {A} e.

#[global] Instance result_ret : MRet result := λ A a, Ok a.
#[global] Instance result_bind : MBind result := λ A B k m,
  match m with Ok a => k a | Raise e => Raise e end.

(** A library call whose [ValueError] is not caught. *)
Definition or_ValueError {A : Type} (o : option A) : result A :=
  match o with Some a => Ok a | None => Raise ValueError end.

(** Truth value of an optional string: [None] and the empty string are false.  The
    result is the string when it is true. *)
Definition truthy (value : option string) : option string :=
  match value with
  | Some s => if decide (s = EmptyString) then None else Some s
  | None => None
  end.

(** [value or fallback] on optional strings. *)
Definition or_else (value : option string) (fallback : string) : string :=
  default fallback (truthy value).

(** ** The runs table *)

Record Run : Type := mkRun {
  request_id : string;
  scheduler : string;
  cloud : option string;
  started_at : naive;
  ended_at : option naive;
  status : string;
  reason : option string;
  subreason : option string;
  notes : option string
}.

Definition DEFAULT_LOG_BASE_URL : string := "https://logs.example.com/request/".

(** [Run.to_dict()]: the row and its [log_url]. *)
Definition to_dict (r : Run) : Run * string :=
  (r, DEFAULT_LOG_BASE_URL +:+ request_id r).

(** Insertion of one element in a list ordered by [le], after the elements
    it is not below; [sort_by] is the stable sort it gives. *)
Fixpoint insert_by {A : Type} (le : A → A → bool) (x : A) (l : list A) : list A :=
  match l with
  | [] => [x]
  | y :: l' => if le y x then y :: insert_by le x l' else x :: l
  end.

Definition sort_by {A : Type} (le : A → A → bool) (l : list A) : list A :=
  foldr (insert_by le) [] l.

(** [.order_by(Run.started_at.desc())] *)
Definition started_at_desc (a b : Run) : bool :=
  bool_decide (started_at b ≤ started_at a).

(** [.order_by(Run.reason, Run.started_at.desc())]; SQLite puts NULL first. *)
Definition reason_then_started_desc (a b : Run) : bool :=
  match reason a, reason b with
  | None, None => started_at_desc a b
  | None, Some _ => true
  | Some _, None => false
  | Some x, Some y =>
      if decide (x = y) then started_at_desc a b else String.ltb x y
  end.

(** [Run.query.filter(Run.started_at >= start_utc, Run.started_at < end_utc)] *)
Definition runs_in_window (w : bounds) (table : list Run) : list Run :=
  List.filter (λ r, in_window w (started_at r)) table.

(** [SELECT key, count(id) ... GROUP BY key]: the number of rows per key. *)
Definition group_count {K : Type} `{Countable K} (key : Run → K) (rows : list Run)
  : gmap K nat :=
  foldr (λ r m, <[key r := S (default 0%nat (m !! key r))]> m) ∅ rows.

(** ** Window of a request *)

Section Handlers.
Context `{PyLib}.

(** [parse_iso_utc(value)] *)
Definition parse_iso_utc (value : option string) : option naive :=
  match truthy value with
  | None => None
  | Some value =>
      match fromisoformat value with
      | None => None
      | Some (AwareDT dt) => Some (replace_tzinfo_none (astimezone UTC dt))
      | Some (NaiveDT dt) => Some dt
      end
  end.

(** [parse_dt_local(s, fmt)]; the [ValueError] of [strptime] is not caught. *)
Definition parse_dt_local (s : option string) (fmt : string) : result (option naive) :=
  match truthy s with
  | None => Ok None
  | Some s =>
      dt ← or_ValueError (strptime s fmt);
      Ok (Some (replace_tzinfo_none (astimezone UTC (localize APP_TZ dt))))
  end.

(** [resolve_window_from_request()]; [args] is [request.args]. *)
Definition resolve_window_from_request (clock : naive) (args : gmap string string) : bounds :=
  let tz := APP_TZ in
  let start_param := args !! "start" in
  let end_param := args !! "end" in
  let day_param := args !! "day" in
  let explicit :=
    match truthy start_param, truthy end_param with
    | Some _, Some _ =>
        match parse_iso_utc start_param, parse_iso_utc end_param with
        | Some start_utc, Some end_utc =>
            let start_local := astimezone tz (localize UTC start_utc) in
            let end_local := astimezone tz (localize UTC end_utc) in
            Some (Bounds start_local end_local start_utc end_utc)
        | _, _ => None
        end
    | _, _ => None
    end in
  match explicit with
  | Some w => w
  | None =>
      let by_day :=
        match truthy day_param with
        | Some day_param =>
            match strptime day_param "%Y-%m-%d" with
            | Some day =>
                let ref_local := localize tz (mk_datetime (toordinal day) 12 0 0) in
                Some (get_window_bounds clock (Some ref_local))
            | None => None
            end
        | None => None
        end in
      match by_day with
      | Some w => w
      | None => get_window_bounds clock None
      end
  end.

(** ** Pages *)

(** The filter of [details], whose bounds may be NULL: a comparison with
    NULL selects no row. *)
Definition in_range (lo hi : option naive) (started_at : naive) : bool :=
  match lo, hi with
  | Some lo, Some hi => bool_decide (lo ≤ started_at) && bool_decide (started_at < hi)
  | _, _ => false
  end.

(** What [details] passes to its template. *)
Record details_page : Type := DetailsPage {
  dp_rows : list Run;
  dp_start_local : aware;
  dp_end_local : aware
}.

(** [details()] *)
Definition details (clock : naive) (args : gmap string string) (table : list Run)
  : result details_page :=
  let start := args !! "start" in
  let end_ := args !! "end" in
  let w := get_window_bounds clock None in
  range ←
    match truthy start, truthy end_ with
    | Some _, Some _ =>
        start_utc ← parse_dt_local start "%Y-%m-%d %H:%M:%S";
        end_utc ← parse_dt_local end_ "%Y-%m-%d %H:%M:%S";
        Ok (start_utc, end_utc)
    | _, _ => Ok (Some (start_utc w), Some (end_utc w))
    end;
  let rows :=
    sort_by started_at_desc
      (List.filter (λ r, in_range range.1 range.2 (started_at r)) table) in
  Ok (DetailsPage rows (start_local w) (end_local w)).

(** ** APIs *)

Record summary : Type := Summary {
  sm_window : aware * aware;
  sm_total_runs : nat;
  sm_status_counts : gmap string nat;
  sm_failures : list (string * nat)
}.

(** [api_summary()] *)
Definition api_summary (clock : naive) (args : gmap string string) (table : list Run)
  : summary :=
  let w := resolve_window_from_request clock args in
  let q := runs_in_window w table in
  let total_runs := length q in
  let status_counts := map_to_list (group_count status (runs_in_window w table)) in
  let failures :=
    map_to_list
      (group_count reason
         (List.filter (λ r, bool_decide (status r = "FAILED")) (runs_in_window w table))) in
  Summary (start_local w, end_local w) total_runs
    (list_to_map status_counts)
    (List.map (λ rc, (or_else rc.1 "Unknown", rc.2)) failures).

(** [api_failures()] *)
Definition api_failures (clock : naive) (args : gmap string string) (table : list Run)
  : gmap string (list (Run * string)) :=
  let w := resolve_window_from_request clock args in
  let failed_runs :=
    sort_by reason_then_started_desc
      (List.filter (λ r, bool_decide (status r = "FAILED")) (runs_in_window w table)) in
  foldl (λ out r,
           let key := or_else (reason r) "Unknown" in
           <[key := default [] (out !! key) ++ [to_dict r]]> out)
        ∅ failed_runs.

(** One optional exact-match filter of [api_runs]. *)
Definition filter_if {A : Type} (param : option string) (test : string → A → bool)
    (q : list A) : list A :=
  match truthy param with
  | Some v => List.filter (test v) q
  | None => q
  end.

(** [api_runs()] *)
Definition api_runs (clock : naive) (args : gmap string string) (table : list Run)
  : list (Run * string) :=
  let w := resolve_window_from_request clock args in
  let q := runs_in_window w table in
  let q := filter_if (args !! "status") (λ v r, bool_decide (status r = v)) q in
  let q := filter_if (args !! "reason") (λ v r, bool_decide (reason r = Some v)) q in
  let q := filter_if (args !! "scheduler") (λ v r, bool_decide (scheduler r = v)) q in
  let q := filter_if (args !! "cloud") (λ v r, bool_decide (cloud r = Some v)) q in
  List.map to_dict (sort_by started_at_desc q).

(** [api_by_cloud()] *)
Definition api_by_cloud (clock : naive) (args : gmap string string) (table : list Run)
  : gmap string (gmap string nat) :=
  let w := resolve_window_from_request clock args in
  let rows :=
    map_to_list (group_count (λ r, (cloud r, status r)) (runs_in_window w table)) in
  foldl (λ out row,
           let '((cloud, status), cnt) := row in
           let c := or_else cloud "unknown" in
           <[c := <[status := cnt]> (default ∅ (out !! c))]> out)
        ∅ rows.

(** ** Cloud trend *)

(** Two decimal digits and four decimal digits of a number, zero-padded. *)
Definition digit (n : Z) : string :=
  String (Ascii.ascii_of_nat (48 + Z.to_nat (n mod 10))%nat) EmptyString.
Definition pad2 (n : Z) : string := digit (n / 10) +:+ digit n.
Definition pad4 (n : Z) : string := pad2 (n / 100) +:+ pad2 n.

(** The text YYYY-MM-DD of the date with a given ordinal. *)
Definition isodate (ordinal : Z) : string :=
  let '(year, month, day) := ord2ymd ordinal in
  pad4 year +:+ "-" +:+ pad2 month +:+ "-" +:+ pad2 day.

(** [dt.strftime("%Y-%m-%d")] *)
Definition strftime_ymd (dt : naive) : string := isodate (toordinal dt).

(** SQLite's [date(started_at)]: the date part of the stored value. *)
Definition sql_date (started_at : naive) : string := isodate (toordinal started_at).

(** One cell of a trend series. *)
Record bucket : Type := Bucket { passed : nat; failed : nat; total : nat }.

Definition zero_bucket : bucket := Bucket 0 0 0.

Record trend : Type := Trend {
  tr_days : list string;
  tr_clouds : gmap string (list (string * bucket));
  tr_window : aware * aware
}.

(** The value of [days] after parsing and clamping. *)
Definition trend_days (args : gmap string string) : Z :=
  let days :=
    match args !! "days" with
    | None => 7
    | Some v => default 7 (int_of_str v)
    end in
  Z.max 1 (Z.min days 30).

(** One turn of the loop over the grouped rows. *)
Definition trend_add (clouds : gmap string (gmap string bucket))
    (row : string * option string * string * nat) : gmap string (gmap string bucket) :=
  let '(run_date, cloud, status, count) := row in
  let date_key := run_date in
  let cloud_key := or_else cloud "unknown" in
  let stats_by_day := default ∅ (clouds !! cloud_key) in
  let day_bucket := default zero_bucket (stats_by_day !! date_key) in
  let day_bucket :=
    if decide (status = "PASSED")
    then Bucket (passed day_bucket + count)%nat (failed day_bucket) (total day_bucket)
    else Bucket (passed day_bucket) (failed day_bucket + count)%nat (total day_bucket) in
  let day_bucket :=
    Bucket (passed day_bucket) (failed day_bucket) (total day_bucket + count)%nat in
  <[cloud_key := <[date_key := day_bucket]> stats_by_day]> clouds.

Definition default_clouds : list string := ["blr-cloud4"; "blr-cloud5"].

(** The window of the trend: local midnights, [days] calendar days. *)
Definition trend_window (clock : naive) (days : Z) : bounds :=
  let tz := APP_TZ in
  let now_local := datetime_now tz clock in
  let midnight_today := localize tz (mk_datetime (toordinal (wall now_local)) 0 0 0) in
  let start_local := aware_sub midnight_today (timedelta_days (days - 1)) in
  let end_local := aware_add midnight_today (timedelta_days 1) in
  let start_utc := replace_tzinfo_none (astimezone UTC start_local) in
  let end_utc := replace_tzinfo_none (astimezone UTC end_local) in
  Bounds start_local end_local start_utc end_utc.

(** The rows of the grouped query of [api_cloud_trend]. *)
Definition trend_rows (w : bounds) (table : list Run)
  : list (string * option string * string * nat) :=
  map_to_list
    (group_count (λ r, (sql_date (started_at r), cloud r, status r))
       (runs_in_window w table)).

(** [api_cloud_trend()] *)
Definition api_cloud_trend (clock : naive) (args : gmap string string) (table : list Run)
  : trend :=
  let days := trend_days args in
  let w := trend_window clock days in
  let day_labels :=
    (λ i, strftime_ymd (wall (aware_add (start_local w) (timedelta_days i))))
      <$> seqZ 0 days in
  let rows := trend_rows w table in
  let clouds :=
    foldl trend_add (list_to_map ((λ c, (c, ∅)) <$> default_clouds)) rows in
  let clouds_sorted :=
    (λ stats_by_day : gmap string bucket,
       (λ day, (day, default zero_bucket (stats_by_day !! day))) <$> day_labels)
      <$> clouds in
  Trend day_labels clouds_sorted (start_local w, end_local w).

(** ** Ingestion *)

(** One element of the payload: a JSON object whose values are strings. *)
Definition item : Type := gmap string string.

(** The decoded body of the request. *)
Inductive json : Type :=
  | JArray (items : list item)
  | JOther.

(** [item[key]] *)
Definition getitem (it : item) (key : string) : result string :=
  match it !! key with
  | Some v => Ok v
  | None => Raise (KeyError key)
  end.

(** The value a [DateTime] column keeps: the fields, without [tzinfo]. *)
Definition db_datetime (dt : pydatetime) : naive :=
  match dt with
  | NaiveDT dt => dt
  | AwareDT a => wall a
  end.

(** [Run.query.filter_by(request_id=rid).first()] *)
Definition first_by_request_id (rid : string) (session : list Run) : option Run :=
  List.find (λ r, bool_decide (request_id r = rid)) session.

(** Assignment of all the fields of the row found under [rid]. *)
Fixpoint update_row (rid : string) (row : Run) (session : list Run) : list Run :=
  match session with
  | [] => []
  | r :: session' =>
      if decide (request_id r = rid) then row :: session'
      else r :: update_row rid row session'
  end.

(** The state of the loop of [ingest_json]: the rows as the session sees
    them, and the two counters. *)
Record ingest_state : Type := IngestState {
  session : list Run;
  added : nat;
  updated : nat
}.

(** The body of the loop of [ingest_json]. *)
Definition ingest_item (st : ingest_state) (it : item) : result ingest_state :=
  rid ← getitem it "request_id";
  let rec := first_by_request_id rid (session st) in
  let added := if rec is None then S (added st) else added st in
  let updated := if rec is None then updated st else S (updated st) in
  started ← getitem it "started_at";
  started_at ← or_ValueError (fromisoformat started);
  ended_at ←
    match truthy (it !! "ended_at") with
    | Some ended => dt ← or_ValueError (fromisoformat ended); Ok (Some (db_datetime dt))
    | None => Ok None
    end;
  let row :=
    mkRun rid (default "BLR-NSP-SCHEDULER1" (it !! "scheduler")) (it !! "cloud")
      (db_datetime started_at) ended_at (default "FAILED" (it !! "status"))
      (it !! "reason") (it !! "subreason") (it !! "notes") in
  let session :=
    if rec is None then session st ++ [row] else update_row rid row (session st) in
  Ok (IngestState session added updated).

(** [for item in payload: ...], stopping at the first exception. *)
Fixpoint ingest_loop (st : ingest_state) (payload : list item) : result ingest_state :=
  match payload with
  | [] => Ok st
  | it :: payload' => st' ← ingest_item st it; ingest_loop st' payload'
  end.

(** What the client gets from [ingest_json]. *)
Inductive response : Type :=
  | BadRequest                        (* 400, "Expected a JSON array" *)
  | Ingested (added updated : nat)    (* redirect, with the flashed counts *)
  | ServerError (e : exn).            (* 500, uncaught exception *)

(** [ingest_json()] on the stored table: the table after the request and the
    response.  The one [db.session.commit()] follows the loop; when an
    exception leaves the loop it is not reached, and the session is discarded
    with the request, so the stored table keeps its rows. *)
Definition ingest_json (table : list Run) (payload : json) : list Run * response :=
  match payload with
  | JOther => (table, BadRequest)
  | JArray payload =>
      match ingest_loop (IngestState table 0 0) payload with
      | Ok st => (session st, Ingested (added st) (updated st))
      | Raise e => (table, ServerError e)
      end
  end.

End Handlers.

(** ** An implementation of the library interface

    Readers for the zero-padded forms [YYYY-MM-DD], [YYYY-MM-DD hh:mm:ss],
    [YYYY-MM-DD(T| )hh:mm:ss] with an optional [Z] or [±hh:mm], and signed
    decimal integers.  Python's readers accept more; the properties below do
    not depend on which texts are accepted. *)

Definition digit_value (c : ascii) : option Z :=
  let n := Ascii.nat_of_ascii c in
  if bool_decide (48 ≤ n ≤ 57)%nat then Some (Z.of_nat n - 48) else None.

Fixpoint read_digits (n : nat) (acc : Z) (s : string) : option (Z * string) :=
  match n with
  | O => Some (acc, s)
  | S n' =>
      match s with
      | String c s' => d ← digit_value c; read_digits n' (acc * 10 + d) s'
      | EmptyString => None
      end
  end.

Definition read_char (c : ascii) (s : string) : option string :=
  match s with
  | String c' s' => if decide (c = c') then Some s' else None
  | EmptyString => None
  end.

Definition read_date (s : string) : option (Z * string) :=
  '(y, s) ← read_digits 4 0 s;
  s ← read_char "-" s;
  '(m, s) ← read_digits 2 0 s;
  s ← read_char "-" s;
  '(d, s) ← read_digits 2 0 s;
  if bool_decide (1 ≤ y ∧ 1 ≤ m ≤ 12 ∧ 1 ≤ d ≤ days_in_month y m)
  then Some (ymd2ord y m d, s) else None.

(** [hh:mm] and [hh:mm:ss], in microseconds. *)
Definition read_hm (s : string) : option (Z * string) :=
  '(h, s) ← read_digits 2 0 s;
  s ← read_char ":" s;
  '(m, s) ← read_digits 2 0 s;
  if bool_decide (h < 24 ∧ m < 60)
  then Some ((h * 60 + m) * 60 * US_PER_SECOND, s) else None.

Definition read_hms (s : string) : option (Z * string) :=
  '(hm, s) ← read_hm s;
  s ← read_char ":" s;
  '(sec, s) ← read_digits 2 0 s;
  if bool_decide (sec < 60) then Some (hm + sec * US_PER_SECOND, s) else None.

Definition read_utcoffset (s : string) : option (option Z) :=
  match s with
  | EmptyString => Some None
  | String c s' =>
      if decide (s = "Z") then Some (Some 0)
      else
        sign ← (if decide (c = "+"%char) then Some 1
                else if decide (c = "-"%char) then Some (-1) else None);
        '(hm, rest) ← read_hm s';
        if decide (rest = EmptyString) then Some (Some (sign * hm)) else None
  end.

Definition read_iso (s : string) : option pydatetime :=
  '(date, s) ← read_date s;
  match s with
  | EmptyString => Some (NaiveDT (date * US_PER_DAY))
  | String c s' =>
      if bool_decide (c = "T"%char ∨ c = " "%char) then
        '(time, s) ← read_hms s';
        off ← read_utcoffset s;
        let dt := date * US_PER_DAY + time in
        Some (match off with Some off => AwareDT (Aware dt off) | None => NaiveDT dt end)
      else None
  end.

Definition read_strptime (s fmt : string) : option naive :=
  if decide (fmt = "%Y-%m-%d") then
    '(date, s) ← read_date s;
    if decide (s = EmptyString) then Some (date * US_PER_DAY) else None
  else if decide (fmt = "%Y-%m-%d %H:%M:%S") then
    '(date, s) ← read_date s;
    s ← read_char " " s;
    '(time, s) ← read_hms s;
    if decide (s = EmptyString) then Some (date * US_PER_DAY + time) else None
  else None.

Fixpoint read_all_digits (acc : Z) (s : string) : option Z :=
  match s with
  | EmptyString => Some acc
  | String c s' => d ← digit_value c; read_all_digits (acc * 10 + d) s'
  end.

Definition read_int (s : string) : option Z :=
  match s with
  | EmptyString => None
  | String c s' =>
      if decide (c = "-"%char) then
        (if decide (s' = EmptyString) then None else Z.opp <$> read_all_digits 0 s')
      else if decide (c = "+"%char) then
        (if decide (s' = EmptyString) then None else read_all_digits 0 s')
      else read_all_digits 0 s
  end.

Definition readers : PyLib :=
  {| fromisoformat := read_iso; strptime := read_strptime; int_of_str := read_int |}.

(** * The home page and the list of windows *)

(** [date.weekday()]: Monday is 0. *)
Definition weekday (ordinal : Z) : Z := (ordinal + 6) mod 7.

Definition DAY_ABBR : list string := ["Mon"; "Tue"; "Wed"; "Thu"; "Fri"; "Sat"; "Sun"].

Definition MONTH_ABBR : list string :=
  ["Jan"; "Feb"; "Mar"; "Apr"; "May"; "Jun"; "Jul"; "Aug"; "Sep"; "Oct"; "Nov"; "Dec"].

(** The fields [hour] and [minute] of a naive datetime. *)
Definition hour_of (dt : naive) : Z := (dt mod US_PER_DAY) / (3600 * US_PER_SECOND).
Definition minute_of (dt : naive) : Z := (dt mod US_PER_DAY) / (60 * US_PER_SECOND) mod 60.

(** [dt.strftime("%b %d")] in the C locale. *)
Definition strftime_b_d (dt : naive) : string :=
  let '(_, month, day) := ord2ymd (toordinal dt) in
  nth (Z.to_nat (month - 1)) MONTH_ABBR EmptyString +:+ " " +:+ pad2 day.

(** [dt.strftime("%a, %b %d")] *)
Definition strftime_a_b_d (dt : naive) : string :=
  nth (Z.to_nat (weekday (toordinal dt))) DAY_ABBR EmptyString +:+ ", " +:+ strftime_b_d dt.

(** [dt.strftime("%I:%M %p")]: the 12-hour clock. *)
Definition strftime_I_M_p (dt : naive) : string :=
  let h := hour_of dt in
  let h12 := if bool_decide (h mod 12 = 0) then 12 else h mod 12 in
  pad2 h12 +:+ ":" +:+ pad2 (minute_of dt) +:+ " "
  +:+ (if bool_decide (h < 12) then "AM" else "PM").

(** [dt.strftime("%b %d, %I:%M %p")] *)
Definition strftime_b_d_I_M_p (dt : naive) : string :=
  strftime_b_d dt +:+ ", " +:+ strftime_I_M_p dt.

(** The label of a window, as [index] and [api_windows] build it. *)
Definition range_label (start_local end_local : aware) : string :=
  strftime_b_d_I_M_p (wall start_local) +:+ " → " +:+ strftime_b_d_I_M_p (wall end_local).

(** What [index] passes to its template. *)
Record index_page : Type := IndexPage {
  ip_start_local : aware;
  ip_end_local : aware;
  ip_total_runs : nat;
  ip_passed : nat;
  ip_failed : nat;
  ip_killed : nat;
  ip_failures : list (string * nat);
  ip_window_label : string
}.

(** [index()] *)
Definition index (clock : naive) (table : list Run) : index_page :=
  let w := get_window_bounds clock None in
  let q := runs_in_window w table in
  let total_runs := length q in
  let status_counts := map_to_list (group_count status (runs_in_window w table)) in
  let status_map : gmap string nat := list_to_map status_counts in
  let failures :=
    map_to_list
      (group_count reason
         (List.filter (λ r, bool_decide (status r = "FAILED")) (runs_in_window w table))) in
  let failures := List.map (λ rc, (or_else rc.1 "Unknown", rc.2)) failures in
  IndexPage (start_local w) (end_local w) total_runs
    (default 0%nat (status_map !! "PASSED"))
    (default 0%nat (status_map !! "FAILED"))
    (default 0%nat (status_map !! "KILLED"))
    failures
    (range_label (start_local w) (end_local w)).

(** One entry of [api_windows]; the two ISO texts are kept as the naive UTC
    datetimes they print. *)
Record window_entry : Type := WindowEntry {
  we_label : string;
  we_range_label : string;
  we_start_iso : naive;
  we_end_iso : naive
}.

(** [api_windows()] *)
Definition api_windows (clock : naive) : list window_entry :=
  let tz := APP_TZ in
  let now_local := datetime_now tz clock in
  (λ offset,
     let ref := aware_sub now_local (timedelta_days offset) in
     let w := get_window_bounds clock (Some ref) in
     WindowEntry (strftime_a_b_d (wall (start_local w)))
       (range_label (start_local w) (end_local w))
       (start_utc w) (end_utc w))
    <$> seqZ 0 7.

(** * Seeding demo data *)

(** [timedelta(minutes=n)] *)
Definition timedelta_minutes (n : Z) : Z := n * 60 * US_PER_SECOND.

(** [int(time.time())]: whole seconds since 1970-01-01T00:00:00 UTC. *)
Definition EPOCH : naive := mk_datetime 719163 0 0 0.
Definition unix_seconds (clock : naive) : Z := Z.quot (clock - EPOCH) US_PER_SECOND.

(** The [reasons] of [seed_demo]: status, reason, subreason. *)
Definition DEMO_OUTCOMES : list (string * option string * option string) :=
  [ ("FAILED", Some "Stack Creation Failed", Some "Helm install Failed");
    ("FAILED", Some "Stack Creation Failed", Some "Helm chart not found");
    ("FAILED", Some "NSP pod failure", None);
    ("FAILED", Some "Quota Exceed", None);
    ("FAILED", Some "MISSING CASE", Some "CAM Bundle install failed");
    ("FAILED", Some "MISSING CASE", Some "Unable to login to NSP Server");
    ("FAILED", Some "Other Reasons", Some "Default root context file not found");
    ("KILLED", None, None);
    ("PASSED", None, None) ].

(** The draws of the generator [random]: for the run of index [i],
    [rand (2 i)] stands for the draw that picks the outcome and
    [rand (2 i + 1)] for the draw that picks the duration. *)
Definition random_choice {A : Type} (draw : nat) (l : list A) (d : A) : A :=
  nth (draw mod length l) l d.
Definition random_randint (draw : nat) (lo hi : Z) : Z :=
  lo + Z.of_nat draw mod (hi - lo + 1).

(** The body of the loop of [seed_demo]: the session and the counter. *)
Definition seed_demo_step (start : aware) (rid_base : Z) (rand : nat → nat)
    (acc : list Run * nat) (i : Z) : list Run * nat :=
  let '(session, added) := acc in
  let total := 110 in
  let req_id := pretty (rid_base + i) in
  match first_by_request_id req_id session with
  | Some _ => (session, added)
  | None =>
      let '(status, reason, sub) :=
        random_choice (rand (2 * Z.to_nat i)%nat) DEMO_OUTCOMES
          ("PASSED", None, None) in
      let began :=
        replace_tzinfo_none
          (astimezone UTC (aware_add start (timedelta_minutes (13 * i)))) in
      let ended :=
        began + timedelta_minutes (random_randint (rand (2 * Z.to_nat i + 1)%nat) 20 120) in
      let cloud := if bool_decide (i < total / 2) then "blr-cloud4" else "blr-cloud5" in
      (session ++ [mkRun req_id "BLR-NSP-SCHEDULER1" (Some cloud) began (Some ended)
                     status reason sub None],
       S added)
  end.

(** [seed_demo()]: the table after the commit and the number printed. *)
Definition seed_demo (clock : naive) (rand : nat → nat) (table : list Run)
  : list Run * nat :=
  let tz := APP_TZ in
  let now := datetime_now tz clock in
  let ten := localize tz (mk_datetime (toordinal (wall now)) 10 0 1) in
  let start := if aware_ge now ten then ten else aware_sub ten (timedelta_days 1) in
  let rid_base := unix_seconds clock in
  let total := 110 in
  foldl (seed_demo_step start rid_base rand) (table, 0%nat) (seqZ 0 total).

(** * Vocabulary of the specification *)

(** The anchor of a local calendar date: 10:00:01 local time on it. *)
Definition anchor (date : Z) : aware := localize APP_TZ (mk_datetime date 10 0 1).

(** The half-open window of 24 hours that starts at [a]: its local bounds and
    the same two instants in UTC. *)
Definition window_from (a : aware) : bounds :=
  Bounds a (aware_add a (timedelta_days 1)) (instant a) (instant a + timedelta_days 1).

(** The default resolution at the reference instant [R]. *)
Definition window (R : aware) : bounds := get_window_bounds 0 (Some R).

(** [R + 24h] *)
Definition next_day (R : aware) : aware := aware_add R (timedelta_days 1).

(** Noon local time on a calendar date. *)
Definition noon (date : Z) : aware := localize APP_TZ (mk_datetime date 12 0 0).

(** The window of a calendar date: its 10:00:01 local through the next
    date's 10:00:01 local. *)
Definition day_window (date : Z) : bounds :=
  Bounds (anchor date) (anchor (date + 1))
    (instant (anchor date)) (instant (anchor (date + 1))).

(** A window given by two UTC instants, used verbatim. *)
Definition explicit_window (s e : naive) : bounds :=
  Bounds (astimezone APP_TZ (localize UTC s)) (astimezone APP_TZ (localize UTC e)) s e.

(** The instant a query parameter denotes when it parses as ISO-8601: the
    instant of an offset-aware text, and a naive text read as UTC. *)
Definition iso_instant `{PyLib} (value : option string) : option naive :=
  v ← truthy value;
  dt ← fromisoformat v;
  Some (match dt with NaiveDT dt => dt | AwareDT a => instant a end).

(** The calendar date a query parameter denotes when it parses as
    YYYY-MM-DD. *)
Definition calendar_date `{PyLib} (value : option string) : option Z :=
  v ← truthy value;
  toordinal <$> strptime v "%Y-%m-%d".

(** Resolution of the window of a read request, in the words of the
    specification. *)
Definition resolve_spec `{PyLib} (clock : naive) (args : gmap string string) : bounds :=
  match iso_instant (args !! "start"), iso_instant (args !! "end") with
  | Some s, Some e => explicit_window s e
  | _, _ =>
      match calendar_date (args !! "day") with
      | Some date => day_window date
      | None => get_window_bounds clock (Some (datetime_now APP_TZ clock))
      end
  end.

(** A sample reference instant: 2025-10-24 12:00:00 local time. *)
Definition noon_2025_10_24 : aware := localize APP_TZ (mk_datetime 739548 12 0 0).

(** Sample stored runs: one passed on blr-cloud4 at 2025-10-24 05:00 UTC, one
    failed without a cloud at 2025-10-24 19:00 UTC (00:30 local on the
    25th). *)
Definition run_r1 : Run :=
  mkRun "r1" "BLR-NSP-SCHEDULER1" (Some "blr-cloud4") (mk_datetime 739548 5 0 0) None
    "PASSED" None None None.

Definition run_r2 : Run :=
  mkRun "r2" "BLR-NSP-SCHEDULER1" None (mk_datetime 739548 19 0 0) None
    "FAILED" (Some "Quota Exceed") None None.

Definition sample_table : list Run := [run_r1; run_r2].

(** A run killed on blr-cloud5 at 2025-10-25 05:00 UTC. *)
Definition run_r3 : Run :=
  mkRun "r3" "BLR-NSP-SCHEDULER1" (Some "blr-cloud5") (mk_datetime 739549 5 0 0) None
    "KILLED" None None None.

(** A clock reading: 2025-10-25 06:30 UTC, noon local time. *)
Definition sample_clock : naive := mk_datetime 739549 6 30 0.

(** Query strings: an inverted interval, and unreadable bounds. *)
Definition inverted_args : gmap string string :=
  {[ "start" := "2025-10-25T00:00:00Z"; "end" := "2025-10-24T00:00:00+05:30" ]}.

Definition malformed_args : gmap string string :=
  {[ "start" := "yesterday"; "end" := "today" ]}.

(** The cell of the trend for cloud [c] and day [d]: the stored runs of the
    window that are shown under the cloud [c] and whose stored start, a UTC
    value, falls on the calendar date that reads [d]. *)
Definition cell_runs (w : bounds) (table : list Run) (c d : string) : list Run :=
  List.filter
    (λ r, bool_decide (or_else (cloud r) "unknown" = c
                       ∧ isodate (started_at r / US_PER_DAY) = d))
    (runs_in_window w table).

(** Runs of a list by outcome: passed, failed, and killed or any other. *)
Definition n_passed (l : list Run) : nat :=
  length (List.filter (λ r, bool_decide (status r = "PASSED")) l).
Definition n_failed (l : list Run) : nat :=
  length (List.filter (λ r, bool_decide (status r = "FAILED")) l).
Definition n_other (l : list Run) : nat :=
  length (List.filter
            (λ r, bool_decide (status r ≠ "PASSED" ∧ status r ≠ "FAILED")) l).

(** The counts shown for a cell: [failed] takes every run that did not
    pass. *)
Definition cell_bucket (l : list Run) : bucket :=
  Bucket (n_passed l) (n_failed l + n_other l)%nat (length l).

(** The requested number of days (7 when absent or unreadable), and
    clamping to an interval. *)
Definition requested_days `{PyLib} (args : gmap string string) : Z :=
  default 7 (args !! "days" ≫= int_of_str).

Definition clamp (lo hi x : Z) : Z :=
  if bool_decide (x < lo) then lo else if bool_decide (hi < x) then hi else x.

(** The local calendar date of the clock. *)
Definition today (clock : naive) : Z := toordinal (wall (datetime_now APP_TZ clock)).

(** The local calendar date of a stored UTC instant. *)
Definition local_date (started_at : naive) : Z :=
  toordinal (wall (astimezone APP_TZ (localize UTC started_at))).

(** The cell a position of the loop of [api_cloud_trend] stands at, and the
    contribution of one grouped row to the cell of [c] and [d]. *)
Definition bucket_at (clouds : gmap string (gmap string bucket)) (c d : string) : bucket :=
  default zero_bucket (default ∅ (clouds !! c) !! d).

Definition row_bucket (c d : string) (row : string * option string * string * nat) : bucket :=
  let '(run_date, cloud, status, count) := row in
  if bool_decide (or_else cloud "unknown" = c ∧ run_date = d) then
    if decide (status = "PASSED") then Bucket count 0 count else Bucket 0 count count
  else zero_bucket.

(** The rows stored under a request id. *)
Definition stored (rid : string) (table : list Run) : list Run :=
  List.filter (λ r, bool_decide (request_id r = rid)) table.

(** The row that holds the field values of a payload element, or the
    exception the element is refused with. *)
Definition item_row `{PyLib} (it : item) : result Run :=
  rid ← getitem it "request_id";
  started ← getitem it "started_at";
  started_at ← or_ValueError (fromisoformat started);
  ended_at ←
    match truthy (it !! "ended_at") with
    | Some ended => dt ← or_ValueError (fromisoformat ended); Ok (Some (db_datetime dt))
    | None => Ok None
    end;
  Ok (mkRun rid (default "BLR-NSP-SCHEDULER1" (it !! "scheduler")) (it !! "cloud")
        (db_datetime started_at) ended_at (default "FAILED" (it !! "status"))
        (it !! "reason") (it !! "subreason") (it !! "notes")).

(** An element the loop accepts. *)
Definition accepted `{PyLib} (it : item) : Prop := ∃ row, item_row it = Ok row.

(** Upsert by request id: overwrite the row found, or append. *)
Definition upsert (row : Run) (table : list Run) : list Run :=
  match first_by_request_id (request_id row) table with
  | None => table ++ [row]
  | Some _ => update_row (request_id row) row table
  end.

(** Sample payload elements: two for r1, and one without [started_at]. *)
Definition item_r1 : item :=
  {[ "request_id" := "r1"; "started_at" := "2025-10-24T05:00:00Z"; "status" := "PASSED" ]}.

Definition item_r1_again : item :=
  {[ "request_id" := "r1"; "started_at" := "2025-10-24T06:00:00Z";
     "reason" := "Quota Exceed" ]}.

Definition item_no_start : item := {[ "request_id" := "r3"; "status" := "PASSED" ]}.

(** The rows of the two sample elements for r1. *)
Definition row_r1 : Run :=
  mkRun "r1" "BLR-NSP-SCHEDULER1" None (mk_datetime 739548 5 0 0) None
    "PASSED" None None None.

Definition row_r1_again : Run :=
  mkRun "r1" "BLR-NSP-SCHEDULER1" None (mk_datetime 739548 6 0 0) None
    "FAILED" (Some "Quota Exceed") None None.

(** The test of [api_runs] for one optional parameter: no test when the
    parameter is absent or empty, equality with its value otherwise. *)
Definition passes (param : option string) (field : option string) : bool :=
  match truthy param with
  | Some v => bool_decide (field = Some v)
  | None => true
  end.

(** The runs [api_runs] lists for a query string and a window. *)
Definition listed (args : gmap string string) (w : bounds) (r : Run) : bool :=
  in_window w (started_at r)
  && passes (args !! "status") (Some (status r))
  && passes (args !! "reason") (reason r)
  && passes (args !! "scheduler") (Some (scheduler r))
  && passes (args !! "cloud") (cloud r).

(** Most recent first. *)
Definition recent_first (a b : Run) : Prop := started_at b ≤ started_at a.

(** One turn of the loop of [api_by_cloud]. *)
Definition by_cloud_add (out : gmap string (gmap string nat))
    (row : option string * string * nat) : gmap string (gmap string nat) :=
  let '((cloud, status), cnt) := row in
  let c := or_else cloud "unknown" in
  <[c := <[status := cnt]> (default ∅ (out !! c))]> out.

(** The run [seed_demo] adds for the index [i]. *)
Definition demo_run (start : aware) (rid_base : Z) (rand : nat → nat) (i : Z) : Run :=
  let outcome :=
    random_choice (rand (2 * Z.to_nat i)%nat) DEMO_OUTCOMES ("PASSED", None, None) in
  let began :=
    replace_tzinfo_none (astimezone UTC (aware_add start (timedelta_minutes (13 * i)))) in
  mkRun (pretty (rid_base + i)) "BLR-NSP-SCHEDULER1"
    (Some (if bool_decide (i < 110 / 2) then "blr-cloud4" else "blr-cloud5"))
    began
    (Some (began + timedelta_minutes (random_randint (rand (2 * Z.to_nat i + 1)%nat) 20 120)))
    outcome.1.1 outcome.1.2 outcome.2 None.

(** What holds of every run that [seed_demo] adds, [w] being the current
    window. *)
Definition seeded_ok (w : bounds) (r : Run) : Prop :=
  in_window w (started_at r) = true
  ∧ (cloud r = Some "blr-cloud4" ∨ cloud r = Some "blr-cloud5")
  ∧ (status r, reason r, subreason r) ∈ DEMO_OUTCOMES
  ∧ ∃ ended, ended_at r = Some ended
             ∧ timedelta_minutes 20 ≤ ended - started_at r ≤ timedelta_minutes 120.

(** * Properties *)

(** ** The model on the examples of the specification *)


(** Sample dates and runs. *)
Example ymd2ord_2025_10_24 : ymd2ord 2025 10 24 = 739548.
Proof. reflexivity. Qed.

Example ord2ymd_2025_10_24 : ord2ymd 739548 = (2025, 10, 24).
Proof. reflexivity. Qed.

Example isodate_leap_day : isodate (ymd2ord 2024 2 29) = "2024-02-29".
Proof. reflexivity. Qed.

Example read_iso_utc :
  read_iso "2025-10-24T05:00:00Z"
  = Some (AwareDT (Aware (mk_datetime 739548 5 0 0) 0)).
Proof. reflexivity. Qed.

Example read_iso_offset :
  @parse_iso_utc readers (Some "2025-10-24T10:30:00+05:30")
  = Some (mk_datetime 739548 5 0 0).
Proof. reflexivity. Qed.

Example read_iso_garbage : read_iso "yesterday" = None.
Proof. reflexivity. Qed.

Example read_day : read_strptime "2025-10-24" "%Y-%m-%d" = Some (mk_datetime 739548 0 0 0).
Proof. reflexivity. Qed.

Example read_int_ok : read_int "-12" = Some (-12) ∧ read_int "x" = None.
Proof. split; reflexivity. Qed.

(** The window of [day=2025-10-24] holds both sample runs. *)
Example by_cloud_sample :
  @api_by_cloud readers sample_clock {[ "day" := "2025-10-24" ]} sample_table
  = {[ "blr-cloud4" := {[ "PASSED" := 1%nat ]}; "unknown" := {[ "FAILED" := 1%nat ]} ]}.
Proof. vm_compute. reflexivity. Qed.

Example summary_sample :
  let sm := @api_summary readers sample_clock {[ "day" := "2025-10-24" ]} sample_table in
  sm_total_runs sm = 2%nat
  ∧ sm_status_counts sm !! "PASSED" = Some 1%nat
  ∧ sm_status_counts sm !! "FAILED" = Some 1%nat
  ∧ sm_failures sm = [("Quota Exceed", 1%nat)].
Proof. vm_compute. repeat split; reflexivity. Qed.

Example failures_sample :
  @api_failures readers sample_clock {[ "day" := "2025-10-24" ]} sample_table
  = {[ "Quota Exceed" := [to_dict run_r2] ]}.
Proof. vm_compute. reflexivity. Qed.

Example runs_filter_no_match :
  @api_runs readers sample_clock {[ "day" := "2025-10-24"; "reason" := "Selenium Down" ]}
    sample_table = [].
Proof. vm_compute. reflexivity. Qed.

Example runs_most_recent_first :
  fst <$> @api_runs readers sample_clock {[ "day" := "2025-10-24" ]} sample_table
  = [run_r2; run_r1].
Proof. vm_compute. reflexivity. Qed.

Example ingest_not_an_array :
  @ingest_json readers sample_table JOther = (sample_table, BadRequest).
Proof. reflexivity. Qed.

(** ** Default window resolution *)

Lemma US_PER_DAY_eq : US_PER_DAY = 86400000000.
Proof. reflexivity. Qed.

Lemma toordinal_mk_datetime (date hour minute second : Z) :
  0 ≤ (hour * 60 + minute) * 60 + second < 86400 →
  toordinal (mk_datetime date hour minute second) = date.
Proof.
  intros Hs. unfold toordinal, mk_datetime.
  rewrite Z.add_comm, Z.div_add by (rewrite US_PER_DAY_eq; lia).
  rewrite Z.div_small; [lia|].
  unfold US_PER_DAY, US_PER_SECOND. lia.
Qed.

Lemma toordinal_add_days (dt n : Z) :
  toordinal (dt + timedelta_days n) = toordinal dt + n.
Proof.
  unfold toordinal, timedelta_days.
  apply Z.div_add. rewrite US_PER_DAY_eq. lia.
Qed.

Lemma mk_datetime_add_days (date n hour minute second : Z) :
  mk_datetime (date + n) hour minute second
  = mk_datetime date hour minute second + timedelta_days n.
Proof. unfold mk_datetime, timedelta_days. lia. Qed.

Lemma in_window_spec (w : bounds) (t : naive) :
  in_window w t = true ↔ start_utc w ≤ t < end_utc w.
Proof.
  unfold in_window. rewrite andb_true_iff, !bool_decide_eq_true. tauto.
Qed.

(** The window returned for an explicit reference is [window_from] its
    start, and the start is one of the two anchors. *)
Lemma get_window_bounds_ref (clock : naive) (R : aware) :
  let A := anchor (toordinal (wall R)) in
  get_window_bounds clock (Some R)
  = window_from (if aware_ge R A then A else aware_sub A (timedelta_days 1)).
Proof.
  unfold get_window_bounds, window_from, anchor. simpl.
  destruct (aware_ge R _); f_equal;
    unfold replace_tzinfo_none, astimezone, aware_add, aware_sub, instant, UTC;
    simpl; lia.
Qed.

Lemma anchor_pred (date : Z) :
  aware_sub (anchor date) (timedelta_days 1) = anchor (date - 1).
Proof.
  unfold aware_sub, anchor, localize. simpl. f_equal.
  unfold mk_datetime, timedelta_days. lia.
Qed.

(** C1: for every reference instant R (local wall clock [r]), the default
    resolution returns the half-open window [A, A+24h) with A = 10:00:01
    local on R's calendar date when R is at or after A, R = A included, and
    the window [A', A'+24h) of the previous date's anchor A' otherwise; one
    second before the anchor the window is the previous day's.  With no
    reference passed, the reference is the current instant. *)
Theorem default_window_resolution (clock : naive) (r : naive) :
  let R := localize APP_TZ r in
  let A := anchor (toordinal r) in
  let A' := anchor (toordinal r - 1) in
  get_window_bounds clock (Some R)
    = window_from (if bool_decide (instant A ≤ instant R) then A else A')
  ∧ get_window_bounds clock (Some A) = window_from A
  ∧ start_local (get_window_bounds clock (Some A)) = A
  ∧ get_window_bounds clock (Some (aware_sub A (timedelta_seconds 1))) = window_from A'
  ∧ get_window_bounds clock None
    = get_window_bounds clock (Some (datetime_now APP_TZ clock))
  ∧ (∀ (a : aware) (t : naive),
       in_window (window_from a) t = true ↔ instant a ≤ t < instant a + timedelta_days 1).
Proof.
  intros R A A'.
  assert (HA : get_window_bounds clock (Some A) = window_from A).
  { rewrite get_window_bounds_ref. subst A. unfold anchor at 1 2. simpl.
    rewrite toordinal_mk_datetime by lia.
    unfold aware_ge. rewrite bool_decide_eq_true_2 by lia. reflexivity. }
  split; [|split; [exact HA|split; [rewrite HA; reflexivity|split; [|split]]]].
  - rewrite get_window_bounds_ref. subst R A A'. simpl.
    unfold aware_ge. rewrite anchor_pred. reflexivity.
  - rewrite get_window_bounds_ref. subst A A'.
    assert (Hd : toordinal (wall (aware_sub (anchor (toordinal r)) (timedelta_seconds 1)))
                 = toordinal r).
    { unfold anchor, aware_sub, localize. simpl.
      replace (mk_datetime (toordinal r) 10 0 1 - timedelta_seconds 1)
        with (mk_datetime (toordinal r) 10 0 0)
        by (unfold mk_datetime, timedelta_seconds; lia).
      apply toordinal_mk_datetime. lia. }
    rewrite Hd. unfold aware_ge.
    rewrite bool_decide_eq_false_2.
    + rewrite anchor_pred. reflexivity.
    + unfold instant, anchor, aware_sub, localize, timedelta_seconds, US_PER_SECOND.
      simpl. lia.
  - reflexivity.
  - intros a t. rewrite in_window_spec. reflexivity.
Qed.

(** The window of a reference instant contains that instant. *)
Lemma window_contains_reference (clock : naive) (r : naive) :
  in_window (get_window_bounds clock (Some (localize APP_TZ r)))
    (instant (localize APP_TZ r)) = true.
Proof.
  rewrite get_window_bounds_ref. apply in_window_spec.
  pose proof (Z.div_mod r US_PER_DAY ltac:(rewrite US_PER_DAY_eq; lia)) as Hr.
  pose proof (Z.mod_pos_bound r US_PER_DAY ltac:(rewrite US_PER_DAY_eq; lia)) as Hm.
  unfold aware_ge, window_from, anchor, aware_sub, instant, localize, toordinal,
    mk_datetime, timedelta_days in *.
  simpl. rewrite US_PER_DAY_eq in *. unfold US_PER_SECOND.
  case_bool_decide; simpl; lia.
Qed.

(** ** Consecutive windows *)

Lemma aware_ge_next_day (R : aware) (date : Z) :
  aware_ge (next_day R) (anchor (date + 1)) = aware_ge R (anchor date).
Proof.
  unfold aware_ge, next_day, anchor, aware_add, instant, localize. simpl.
  rewrite mk_datetime_add_days. apply bool_decide_ext. lia.
Qed.

(** The window of [R + 24h] is the window of [R] moved by one day. *)
Lemma window_next_day (R : aware) :
  window (next_day R) = window_from (end_local (window R)).
Proof.
  unfold window. rewrite !get_window_bounds_ref.
  replace (toordinal (wall (next_day R))) with (toordinal (wall R) + 1)
    by (symmetry; apply toordinal_add_days).
  rewrite aware_ge_next_day.
  destruct (aware_ge R _); simpl; f_equal.
  - unfold anchor, aware_add, localize. simpl. f_equal. apply mk_datetime_add_days.
  - unfold anchor, aware_add, aware_sub, localize. simpl. f_equal.
    rewrite mk_datetime_add_days. lia.
Qed.

(** C2, as stated, fails: after 24 hours the window ends a day later, and a
    run started at the boundary instant is selected by the following
    window, not by the preceding one. *)
Lemma window_end_moves_with_reference :
  end_utc (window noon_2025_10_24) ≠ end_utc (window (next_day noon_2025_10_24))
  ∧ in_window (window noon_2025_10_24) (end_utc (window noon_2025_10_24)) = false
  ∧ in_window (window (next_day noon_2025_10_24)) (end_utc (window noon_2025_10_24)) = true.
Proof. split; [|split]; vm_compute; congruence. Qed.

(** C2, amended: for every reference instant R the window of R ends where
    the window of R + 24h starts, no instant and no stored run belongs to
    both, and the boundary instant belongs to the following window (its
    inclusive start), not to the preceding one (strict [<] on the end). *)
Theorem windows_contiguous_disjoint (R : aware) (table : list Run) :
  end_utc (window R) = start_utc (window (next_day R))
  ∧ end_local (window R) = start_local (window (next_day R))
  ∧ (∀ t : naive, in_window (window R) t && in_window (window (next_day R)) t = false)
  ∧ in_window (window R) (end_utc (window R)) = false
  ∧ in_window (window (next_day R)) (end_utc (window R)) = true
  ∧ runs_in_window (window (next_day R)) (runs_in_window (window R) table) = [].
Proof.
  rewrite window_next_day.
  assert (Hw : ∃ a, window R = window_from a).
  { unfold window. rewrite get_window_bounds_ref. eauto. }
  destruct Hw as [a ->]. simpl.
  assert (Hdisj : ∀ t : naive,
    in_window (window_from a) t
    && in_window (window_from (aware_add a (timedelta_days 1))) t = false).
  { intros t. unfold in_window, window_from, aware_add, instant, timedelta_days.
    simpl. rewrite US_PER_DAY_eq.
    repeat case_bool_decide; simpl; try reflexivity; lia. }
  split; [|split; [reflexivity|split; [exact Hdisj|split; [|split]]]].
  - unfold aware_add, instant. simpl. lia.
  - unfold in_window, window_from. simpl.
    rewrite (bool_decide_eq_false_2 (_ < _)) by lia. apply andb_false_r.
  - apply in_window_spec. unfold window_from, aware_add, instant, timedelta_days.
    simpl. rewrite US_PER_DAY_eq. lia.
  - unfold runs_in_window. induction table as [|x table IH]; [reflexivity|].
    simpl. destruct (in_window (window_from a) (started_at x)) eqn:Hx; [|exact IH].
    simpl. specialize (Hdisj (started_at x)). rewrite Hx in Hdisj. simpl in Hdisj.
    rewrite Hdisj. exact IH.
Qed.

(** ** Window of a request *)

Section Resolution.
Context `{PyLib}.

Lemma parse_iso_utc_instant (value : option string) :
  parse_iso_utc value = iso_instant value.
Proof.
  unfold parse_iso_utc, iso_instant.
  destruct (truthy value) as [v|]; simpl; [|reflexivity].
  destruct (fromisoformat v) as [[dt|a]|]; simpl; try reflexivity.
  unfold replace_tzinfo_none, astimezone, UTC. simpl. f_equal. lia.
Qed.

Lemma parse_iso_utc_truthy (value : option string) (dt : naive) :
  parse_iso_utc value = Some dt → ∃ v, truthy value = Some v.
Proof.
  unfold parse_iso_utc. destruct (truthy value) as [v|]; [eauto|discriminate].
Qed.

(** The default resolution at noon of a date is the window of that date. *)
Lemma get_window_bounds_noon (clock : naive) (date : Z) :
  get_window_bounds clock (Some (noon date)) = day_window date.
Proof.
  rewrite get_window_bounds_ref. unfold noon at 1 2. simpl wall.
  rewrite toordinal_mk_datetime by lia.
  unfold aware_ge. rewrite bool_decide_eq_true_2.
  - unfold window_from, day_window, anchor, aware_add, localize, instant. simpl.
    rewrite mk_datetime_add_days. f_equal. lia.
  - unfold instant, noon, anchor, localize, mk_datetime, US_PER_SECOND. simpl. lia.
Qed.

Lemma resolve_window_eq_spec (clock : naive) (args : gmap string string) :
  resolve_window_from_request clock args = resolve_spec clock args.
Proof.
  unfold resolve_window_from_request, resolve_spec.
  rewrite <- !parse_iso_utc_instant.
  destruct (parse_iso_utc (args !! "start")) as [s|] eqn:Hs;
    destruct (parse_iso_utc (args !! "end")) as [e|] eqn:He.
  1: { destruct (parse_iso_utc_truthy _ _ Hs) as [vs ->].
       destruct (parse_iso_utc_truthy _ _ He) as [ve ->]. reflexivity. }
  all: replace (match truthy (args !! "start") with
               | Some _ => match truthy (args !! "end") with
                           | Some _ => None | None => None end
               | None => None end) with (@None bounds)
        by (destruct (truthy (args !! "start")), (truthy (args !! "end")); reflexivity).
  all: unfold calendar_date.
  all: destruct (truthy (args !! "day")) as [d|]; simpl; [|reflexivity].
  all: destruct (strptime d "%Y-%m-%d") as [day|]; simpl; [|reflexivity].
  all: apply get_window_bounds_noon.
Qed.

(** C4: the window of a read request is the pair of instants of [start] and
    [end], verbatim, when both parse as ISO-8601 (an offset-aware text
    converted to UTC, a naive one taken as UTC); otherwise the window of the
    date of [day] when it parses as YYYY-MM-DD, from that date's 10:00:01
    local to the next date's, which is the default resolution at noon local
    time on that date; otherwise the default resolution at the current
    instant. *)
Theorem resolve_window_from_request_spec (clock : naive) (args : gmap string string) :
  resolve_window_from_request clock args = resolve_spec clock args
  ∧ (∀ date : Z, get_window_bounds clock (Some (noon date)) = day_window date)
  ∧ get_window_bounds clock None = get_window_bounds clock (Some (datetime_now APP_TZ clock)).
Proof.
  split; [apply resolve_window_eq_spec|split; [apply get_window_bounds_noon|reflexivity]].
Qed.

End Resolution.

(** ** Malformed window parameters *)

Section Fallback.
Context `{PyLib}.

(** The API resolver ignores parameters that do not parse. *)
Lemma resolve_window_falls_back (clock : naive) (args : gmap string string) :
  iso_instant (args !! "start") = None ∨ iso_instant (args !! "end") = None →
  calendar_date (args !! "day") = None →
  resolve_window_from_request clock args = get_window_bounds clock None.
Proof.
  intros Hse Hd. rewrite resolve_window_eq_spec. unfold resolve_spec.
  rewrite Hd. destruct Hse as [-> | ->]; [reflexivity|].
  destruct (iso_instant (args !! "start")); reflexivity.
Qed.

(** [details] does not: a [start] its reader rejects ends the request with
    the uncaught [ValueError]. *)
Lemma details_malformed_start (clock : naive) (args : gmap string string)
    (table : list Run) (s e : string) :
  truthy (args !! "start") = Some s →
  truthy (args !! "end") = Some e →
  strptime s "%Y-%m-%d %H:%M:%S" = None →
  details clock args table = Raise ValueError.
Proof.
  intros Hs He Hp. unfold details, parse_dt_local. rewrite Hs, He, Hp. reflexivity.
Qed.

End Fallback.

(** C5 at the request [/details?start=yesterday&end=today]: the page raises
    instead of showing the current window, which the API endpoints show for
    the same query string. *)
Theorem details_raises_on_malformed_window :
  @details readers sample_clock malformed_args sample_table = Raise ValueError
  ∧ @resolve_window_from_request readers sample_clock malformed_args
    = get_window_bounds sample_clock None.
Proof. split; vm_compute; reflexivity. Qed.

(** ** Inverted explicit windows *)

Lemma runs_in_window_inverted (w : bounds) (table : list Run) :
  end_utc w ≤ start_utc w → runs_in_window w table = [].
Proof.
  intros Hw. unfold runs_in_window.
  induction table as [|r table IH]; [reflexivity|]. simpl.
  destruct (in_window w (started_at r)) eqn:Hr; [|exact IH].
  apply in_window_spec in Hr. lia.
Qed.

Lemma filter_if_nil {A : Type} (param : option string) (test : string → A → bool) :
  filter_if param test [] = [].
Proof. unfold filter_if. destruct (truthy param); reflexivity. Qed.

Section Inverted.
Context `{PyLib}.

(** C10: when [start] and [end] both parse and [end] is not after [start],
    the resolver returns the two instants as they are, and every windowed
    API returns empty results: no runs counted, no status or reason
    counts, no run lists, no cloud. *)
Theorem inverted_window_is_empty (clock : naive) (args : gmap string string)
    (table : list Run) (s e : naive) :
  iso_instant (args !! "start") = Some s →
  iso_instant (args !! "end") = Some e →
  e ≤ s →
  resolve_window_from_request clock args = explicit_window s e
  ∧ api_summary clock args table
    = Summary (start_local (explicit_window s e), end_local (explicit_window s e)) 0 ∅ []
  ∧ api_failures clock args table = ∅
  ∧ api_runs clock args table = []
  ∧ api_by_cloud clock args table = ∅.
Proof.
  intros Hs He Hes.
  assert (Hw : resolve_window_from_request clock args = explicit_window s e).
  { rewrite resolve_window_eq_spec. unfold resolve_spec. rewrite Hs, He. reflexivity. }
  assert (Hq : runs_in_window (explicit_window s e) table = []).
  { apply runs_in_window_inverted. simpl. exact Hes. }
  split; [exact Hw|].
  unfold api_summary, api_failures, api_runs, api_by_cloud.
  rewrite Hw, Hq. simpl. rewrite !filter_if_nil. simpl.
  rewrite !map_to_list_empty. simpl. repeat split; reflexivity.
Qed.

End Inverted.

Lemma inverted_window_is_empty_witness :
  @resolve_window_from_request readers sample_clock inverted_args
    = explicit_window (mk_datetime 739549 0 0 0) (mk_datetime 739547 18 30 0)
  ∧ @api_summary readers sample_clock inverted_args sample_table
    = Summary (start_local (explicit_window (mk_datetime 739549 0 0 0)
                              (mk_datetime 739547 18 30 0)),
               end_local (explicit_window (mk_datetime 739549 0 0 0)
                            (mk_datetime 739547 18 30 0))) 0 ∅ []
  ∧ @api_failures readers sample_clock inverted_args sample_table = ∅
  ∧ @api_runs readers sample_clock inverted_args sample_table = []
  ∧ @api_by_cloud readers sample_clock inverted_args sample_table = ∅.
Proof.
  apply (@inverted_window_is_empty readers sample_clock inverted_args sample_table).
  - vm_compute. reflexivity.
  - vm_compute. reflexivity.
  - vm_compute. discriminate.
Defined.

(** ** Cloud trend: the date of a run *)

(** C3 at a run started 2025-10-24 19:00 UTC, which is 00:30 on the 25th in
    local time, with the trend asked for one day on the 25th: the run is in
    the window and its local date is the day of the series, but the
    grouped query dates it the 24th (the UTC date), so the series shows no
    run. *)
Theorem cloud_trend_groups_by_utc_date :
  let resp := @api_cloud_trend readers sample_clock {[ "days" := "1" ]} [run_r2] in
  in_window (trend_window sample_clock 1) (started_at run_r2) = true
  ∧ isodate (local_date (started_at run_r2)) = "2025-10-25"
  ∧ sql_date (started_at run_r2) = "2025-10-24"
  ∧ tr_days resp = ["2025-10-25"]
  ∧ tr_clouds resp !! "unknown" = Some [("2025-10-25", zero_bucket)].
Proof. vm_compute. repeat split; reflexivity. Qed.

(** ** Cloud trend: the series *)

Lemma bucket_eq (a b : bucket) :
  passed a = passed b → failed a = failed b → total a = total b → a = b.
Proof. destruct a, b. simpl. congruence. Qed.

(** One turn of the loop adds the row to its cell and leaves the others. *)
Lemma trend_add_at (clouds : gmap string (gmap string bucket))
    (row : string * option string * string * nat) (c d : string) :
  bucket_at (trend_add clouds row) c d
  = Bucket (passed (bucket_at clouds c d) + passed (row_bucket c d row))%nat
           (failed (bucket_at clouds c d) + failed (row_bucket c d row))%nat
           (total (bucket_at clouds c d) + total (row_bucket c d row))%nat.
Proof.
  destruct row as [[[run_date cl] st] n].
  unfold trend_add, bucket_at, row_bucket.
  destruct (decide (or_else cl "unknown" = c)) as [Hc|Hc].
  - rewrite Hc, lookup_insert_eq. simpl.
    destruct (decide (run_date = d)) as [Hd|Hd].
    + rewrite Hd, lookup_insert_eq. simpl.
      rewrite bool_decide_eq_true_2 by done.
      destruct (decide (st = "PASSED")); simpl; apply bucket_eq; simpl; lia.
    + rewrite lookup_insert_ne by done.
      rewrite bool_decide_eq_false_2 by (intros [_ ?]; done).
      apply bucket_eq; simpl; lia.
  - rewrite lookup_insert_ne by done.
    rewrite bool_decide_eq_false_2 by (intros [? _]; done).
    apply bucket_eq; simpl; lia.
Qed.

(** The whole loop adds, to every cell, its rows. *)
Lemma trend_loop_at (rows : list (string * option string * string * nat))
    (clouds : gmap string (gmap string bucket)) (c d : string) :
  bucket_at (foldl trend_add clouds rows) c d
  = Bucket (passed (bucket_at clouds c d) + sum_list_with (λ row, passed (row_bucket c d row)) rows)%nat
           (failed (bucket_at clouds c d) + sum_list_with (λ row, failed (row_bucket c d row)) rows)%nat
           (total (bucket_at clouds c d) + sum_list_with (λ row, total (row_bucket c d row)) rows)%nat.
Proof.
  revert clouds. induction rows as [|row rows IH]; intros clouds; simpl.
  - apply bucket_eq; simpl; lia.
  - rewrite IH, trend_add_at. apply bucket_eq; simpl; lia.
Qed.

(** No cloud has a cell before the loop. *)
Lemma trend_init_at (c d : string) :
  bucket_at (list_to_map ((λ c, (c, ∅)) <$> default_clouds)) c d = zero_bucket.
Proof.
  unfold bucket_at, default_clouds. simpl.
  destruct (decide ("blr-cloud4" = c)) as [<-|?].
  - rewrite lookup_insert_eq. reflexivity.
  - rewrite lookup_insert_ne by done.
    destruct (decide ("blr-cloud5" = c)) as [<-|?].
    + rewrite lookup_insert_eq. reflexivity.
    + rewrite lookup_insert_ne by done. reflexivity.
Qed.

(** Summing the counts of the groups that satisfy [P] counts the rows whose
    key satisfies [P]. *)
Lemma group_count_sum {K : Type} `{Countable K} (key : Run → K) (P : K → bool)
    (rows : list Run) :
  sum_list_with (λ kn : K * nat, if P kn.1 then kn.2 else 0%nat)
    (map_to_list (group_count key rows))
  = length (List.filter (λ r, P (key r)) rows).
Proof.
  induction rows as [|r rows IH]; simpl.
  - rewrite map_to_list_empty. reflexivity.
  - set (m := group_count key rows) in *.
    replace (length (if P (key r) then r :: List.filter (λ r, P (key r)) rows
                     else List.filter (λ r, P (key r)) rows))
      with ((if P (key r) then 1 else 0)
            + length (List.filter (λ r, P (key r)) rows))%nat
      by (destruct (P (key r)); reflexivity).
    rewrite <- IH.
    destruct (m !! key r) as [n|] eqn:Hm; simpl.
    + rewrite <- (insert_delete_eq m (key r) (S n)).
      rewrite map_to_list_insert by apply lookup_delete_eq.
      rewrite <- (insert_delete_id m (key r) n Hm) at 2.
      rewrite (map_to_list_insert (delete (key r) m) (key r) n)
        by apply lookup_delete_eq.
      simpl. destruct (P (key r)); simpl; lia.
    + rewrite map_to_list_insert by done. simpl.
      destruct (P (key r)); simpl; lia.
Qed.

Lemma sum_list_with_ext {A : Type} (f g : A → nat) (l : list A) :
  (∀ x, f x = g x) → sum_list_with f l = sum_list_with g l.
Proof. intros Hfg. induction l as [|x l IH]; simpl; [reflexivity|]. rewrite Hfg, IH. reflexivity. Qed.

(** Counting in a cell is counting in the window with the test of the
    cell. *)
Lemma length_filter_cell (p : Run → bool) (q : string → bool) (l : list Run) :
  length (List.filter (λ r, p r && q (status r)) l)
  = length (List.filter (λ r, q (status r)) (List.filter p l)).
Proof.
  induction l as [|r l IH]; simpl; [reflexivity|].
  destruct (p r); simpl; [|exact IH].
  destruct (q (status r)); simpl; rewrite IH; reflexivity.
Qed.

Lemma n_not_passed (l : list Run) :
  length (List.filter (λ r, negb (bool_decide (status r = "PASSED"))) l)
  = (n_failed l + n_other l)%nat.
Proof.
  unfold n_failed, n_other.
  induction l as [|r l IH]; simpl; [reflexivity|].
  destruct (decide (status r = "PASSED")) as [Hp|Hp].
  - rewrite (bool_decide_eq_true_2 _ Hp). simpl.
    rewrite bool_decide_eq_false_2 by (rewrite Hp; discriminate).
    rewrite bool_decide_eq_false_2 by (intros [? _]; done).
    exact IH.
  - rewrite (bool_decide_eq_false_2 _ Hp). simpl.
    destruct (decide (status r = "FAILED")) as [Hf|Hf].
    + rewrite (bool_decide_eq_true_2 _ Hf).
      rewrite bool_decide_eq_false_2 by (intros [_ ?]; done).
      simpl. rewrite IH. reflexivity.
    + rewrite (bool_decide_eq_false_2 _ Hf).
      rewrite bool_decide_eq_true_2 by done.
      simpl. rewrite IH. lia.
Qed.

Lemma n_passed_failed_other (l : list Run) :
  length l = (n_passed l + n_failed l + n_other l)%nat.
Proof.
  rewrite <- Nat.add_assoc, <- n_not_passed. unfold n_passed.
  induction l as [|r l IH]; simpl; [reflexivity|].
  destruct (bool_decide (status r = "PASSED")); simpl; lia.
Qed.

Lemma trend_rows_sum (P : string * option string * string → bool) (w : bounds)
    (table : list Run) :
  sum_list_with (λ kn : string * option string * string * nat,
                   if P kn.1 then kn.2 else 0%nat) (trend_rows w table)
  = length (List.filter (λ r, P (sql_date (started_at r), cloud r, status r))
              (runs_in_window w table)).
Proof. apply group_count_sum. Qed.

(** The field of [row_bucket] on a row, by cases on the cell and on the
    status of the row. *)
Ltac row_bucket_cases :=
  let Hp := fresh "Hp" in
  intros [[[? ?] ?] ?]; simpl;
  case_bool_decide; simpl; [|reflexivity];
  match goal with
  | |- context [decide (?st = "PASSED")] =>
      destruct (decide (st = "PASSED")) as [Hp|Hp];
      [rewrite ?(bool_decide_eq_true_2 _ Hp)|rewrite ?(bool_decide_eq_false_2 _ Hp)];
      reflexivity
  end.

(** After the loop, each cell holds the counts of its runs. *)
Lemma trend_cell (w : bounds) (table : list Run) (c d : string) :
  bucket_at
    (foldl trend_add (list_to_map ((λ c, (c, ∅)) <$> default_clouds)) (trend_rows w table))
    c d
  = cell_bucket (cell_runs w table c d).
Proof.
  rewrite trend_loop_at, trend_init_at. unfold cell_bucket, cell_runs.
  set (l := runs_in_window w table).
  change (λ r : Run, bool_decide (or_else (cloud r) "unknown" = c
                                  ∧ isodate (started_at r / US_PER_DAY) = d))
    with (λ r : Run, bool_decide (or_else (cloud r) "unknown" = c
                                  ∧ sql_date (started_at r) = d)).
  set (cell := λ r : Run,
         bool_decide (or_else (cloud r) "unknown" = c ∧ sql_date (started_at r) = d)).
  pose (in_cell := λ k : string * option string * string,
         bool_decide (or_else k.1.2 "unknown" = c ∧ k.1.1 = d)).
  pose (is_passed := λ s : string, bool_decide (s = "PASSED")).
  apply bucket_eq; simpl.
  - rewrite (sum_list_with_ext _
      (λ kn : string * option string * string * nat,
         if (λ k, in_cell k && is_passed k.2) kn.1 then kn.2 else 0%nat)).
    + rewrite (trend_rows_sum (λ k, in_cell k && is_passed k.2)).
      apply (length_filter_cell cell is_passed).
    + unfold in_cell, is_passed. row_bucket_cases.
  - rewrite <- n_not_passed.
    rewrite (sum_list_with_ext _
      (λ kn : string * option string * string * nat,
         if (λ k, in_cell k && negb (is_passed k.2)) kn.1 then kn.2 else 0%nat)).
    + rewrite (trend_rows_sum (λ k, in_cell k && negb (is_passed k.2))).
      apply (length_filter_cell cell (λ s, negb (is_passed s))).
    + unfold in_cell, is_passed. row_bucket_cases.
  - rewrite (sum_list_with_ext _
      (λ kn : string * option string * string * nat,
         if in_cell kn.1 then kn.2 else 0%nat)).
    + rewrite (trend_rows_sum in_cell). reflexivity.
    + unfold in_cell. row_bucket_cases.
Qed.

Section Trend.
Context `{PyLib}.

Lemma trend_days_clamp (args : gmap string string) :
  trend_days args = clamp 1 30 (requested_days args).
Proof.
  unfold trend_days, requested_days, clamp.
  destruct (args !! "days") as [v|]; simpl;
    repeat case_bool_decide; lia.
Qed.

Lemma trend_days_range (args : gmap string string) : 1 ≤ trend_days args ≤ 30.
Proof. unfold trend_days. lia. Qed.

(** The labels are the local dates of the [days] days that end today. *)
Lemma trend_label (clock : naive) (days i : Z) :
  strftime_ymd (wall (aware_add (start_local (trend_window clock days)) (timedelta_days i)))
  = isodate (today clock - (days - 1) + i).
Proof.
  unfold strftime_ymd, trend_window, today. simpl. f_equal.
  replace (mk_datetime (toordinal (instant (localize UTC clock) + APP_TZ)) 0 0 0
           - timedelta_days (days - 1) + timedelta_days i)
    with (mk_datetime (toordinal (instant (localize UTC clock) + APP_TZ)) 0 0 0
          + timedelta_days (i - (days - 1)))
    by (unfold timedelta_days; lia).
  rewrite toordinal_add_days, toordinal_mk_datetime by lia. lia.
Qed.

(** C6, amended: the day count D of a trend request is [days], 7 by default,
    clamped to [1, 30]; every cloud series has exactly D entries, the i-th
    for the i-th of the D consecutive local calendar days that end today,
    each with the counts of the runs of its cell, zero when there is none;
    and in each entry total = passed + failed, the count [failed] taking
    every run that did not pass: the failed ones and the killed and other
    ones. *)
Theorem cloud_trend_series (clock : naive) (args : gmap string string)
    (table : list Run) (c : string) (series : list (string * bucket)) :
  let D := trend_days args in
  let w := trend_window clock D in
  tr_clouds (api_cloud_trend clock args table) !! c = Some series →
  D = clamp 1 30 (requested_days args)
  ∧ 1 ≤ D ≤ 30
  ∧ length series = Z.to_nat D
  ∧ series
    = (λ i, let d := isodate (today clock - (D - 1) + i) in
            (d, cell_bucket (cell_runs w table c d))) <$> seqZ 0 D
  ∧ fst <$> series !! Z.to_nat (D - 1) = Some (isodate (today clock))
  ∧ cell_bucket [] = zero_bucket
  ∧ Forall (λ e, total e.2 = (passed e.2 + failed e.2)%nat) series
  ∧ (∀ l, passed (cell_bucket l) = n_passed l
          ∧ failed (cell_bucket l) = (n_failed l + n_other l)%nat
          ∧ total (cell_bucket l) = (n_passed l + n_failed l + n_other l)%nat).
Proof.
  intros D w Hc.
  assert (Hs : series
    = (λ i, let d := isodate (today clock - (D - 1) + i) in
            (d, cell_bucket (cell_runs w table c d))) <$> seqZ 0 D).
  { unfold api_cloud_trend in Hc. cbn [tr_clouds] in Hc. fold D w in Hc.
    apply lookup_fmap_Some in Hc as (stats & <- & Hstats).
    rewrite <- list_fmap_compose. apply list_fmap_ext.
    intros _ i _. unfold compose. cbn zeta. subst w.
    rewrite trend_label. f_equal.
    rewrite <- trend_cell. unfold bucket_at.
    rewrite Hstats. reflexivity. }
  pose proof (trend_days_range args) as HD. fold D in HD.
  split; [apply trend_days_clamp|]. split; [exact HD|].
  split; [rewrite Hs, length_fmap; apply length_seqZ|].
  split; [exact Hs|]. split; [|split; [reflexivity|split]].
  - rewrite Hs, list_lookup_fmap, lookup_seqZ_lt by lia.
    cbn [fmap option_fmap option_map fst]. do 2 f_equal. lia.
  - rewrite Hs. apply Forall_fmap, Forall_true. intros i.
    unfold compose. cbn [snd cell_bucket total passed failed].
    rewrite Nat.add_assoc. apply n_passed_failed_other.
  - intros l. cbn [cell_bucket total passed failed].
    split; [reflexivity|split; [reflexivity|]].
    apply n_passed_failed_other.
Qed.

End Trend.

(** C6, as stated, fails: for one killed run the entry of its day reads
    passed 0, failed 1, total 1, and the killed and other runs of the cell
    are 1, so total is not passed + failed + killed-and-other. *)
Lemma cloud_trend_killed_run_counted_failed :
  tr_clouds (@api_cloud_trend readers sample_clock {[ "days" := "1" ]} [run_r3])
    !! "blr-cloud5" = Some [("2025-10-25", Bucket 0 1 1)]
  ∧ n_other (cell_runs (trend_window sample_clock 1) [run_r3] "blr-cloud5" "2025-10-25")
    = 1%nat
  ∧ total (Bucket 0 1 1)
    ≠ (passed (Bucket 0 1 1) + failed (Bucket 0 1 1)
       + n_other (cell_runs (trend_window sample_clock 1) [run_r3]
                    "blr-cloud5" "2025-10-25"))%nat.
Proof. vm_compute. repeat split; try reflexivity. discriminate. Qed.

Lemma cloud_trend_series_witness :
  length [("2025-10-24", Bucket 0 1 1); ("2025-10-25", zero_bucket)]
  = Z.to_nat (@trend_days readers {[ "days" := "2" ]}).
Proof.
  assert (Hc : tr_clouds (@api_cloud_trend readers sample_clock {[ "days" := "2" ]}
                            sample_table) !! "unknown"
               = Some [("2025-10-24", Bucket 0 1 1); ("2025-10-25", zero_bucket)])
    by (vm_compute; reflexivity).
  exact (proj1 (proj2 (proj2
           (@cloud_trend_series readers sample_clock {[ "days" := "2" ]} sample_table
              "unknown" _ Hc)))).
Defined.

(** ** Ingestion *)

Lemma first_by_request_id_None (rid : string) (table : list Run) :
  first_by_request_id rid table = None ↔ stored rid table = [].
Proof.
  unfold first_by_request_id, stored.
  induction table as [|r table IH]; simpl; [tauto|].
  destruct (bool_decide (request_id r = rid)); [split; discriminate|exact IH].
Qed.

Lemma stored_app (rid : string) (t1 t2 : list Run) :
  stored rid (t1 ++ t2) = stored rid t1 ++ stored rid t2.
Proof. apply List.filter_app. Qed.

Lemma stored_nil_not_elem (rid : string) (table : list Run) :
  stored rid table = [] → rid ∉ request_id <$> table.
Proof.
  unfold stored. induction table as [|r table IH]; simpl; intros Hs.
  - apply not_elem_of_nil.
  - destruct (decide (request_id r = rid)) as [Hr|Hr].
    + rewrite (bool_decide_eq_true_2 _ Hr) in Hs. discriminate.
    + rewrite (bool_decide_eq_false_2 _ Hr) in Hs.
      apply not_elem_of_cons. split; [congruence|auto].
Qed.

Lemma not_elem_stored_nil (rid : string) (table : list Run) :
  rid ∉ request_id <$> table → stored rid table = [].
Proof.
  unfold stored. induction table as [|r table IH]; simpl; intros Hn; [reflexivity|].
  apply not_elem_of_cons in Hn as [Hr Hn].
  rewrite bool_decide_eq_false_2 by congruence. auto.
Qed.

(** Overwriting a row keeps the request ids of the table. *)
Lemma update_row_ids (row : Run) (table : list Run) :
  request_id <$> update_row (request_id row) row table = request_id <$> table.
Proof.
  induction table as [|r table IH]; [reflexivity|]. cbn [update_row].
  destruct (decide (request_id r = request_id row)) as [Hr|Hr]; rewrite !fmap_cons.
  - rewrite Hr. reflexivity.
  - rewrite IH. reflexivity.
Qed.

(** The unique constraint on [request_id] is kept by an upsert. *)
Lemma upsert_NoDup (row : Run) (table : list Run) :
  NoDup (request_id <$> table) → NoDup (request_id <$> upsert row table).
Proof.
  intros Hnd. unfold upsert.
  destruct (first_by_request_id (request_id row) table) eqn:Hf.
  - rewrite update_row_ids. exact Hnd.
  - rewrite fmap_app. apply NoDup_app. split; [exact Hnd|]. split.
    + intros k Hk Hk'. simpl in Hk'. apply list_elem_of_singleton in Hk'. subst k.
      apply first_by_request_id_None, stored_nil_not_elem in Hf. contradiction.
    + simpl. apply NoDup_singleton.
Qed.

Lemma stored_update_row (row : Run) (table : list Run) :
  NoDup (request_id <$> table) →
  is_Some (first_by_request_id (request_id row) table) →
  stored (request_id row) (update_row (request_id row) row table) = [row].
Proof.
  induction table as [|r table IH]; intros Hnd Hf.
  - destruct Hf as [? Hf]. discriminate.
  - rewrite fmap_cons in Hnd. apply NoDup_cons in Hnd as [Hr Hnd].
    cbn [update_row]. unfold first_by_request_id in Hf. simpl in Hf.
    destruct (decide (request_id r = request_id row)) as [Heq|Hne].
    + unfold stored. simpl. rewrite bool_decide_eq_true_2 by done. f_equal.
      apply not_elem_stored_nil. rewrite <- Heq. exact Hr.
    + rewrite (bool_decide_eq_false_2 _ Hne) in Hf.
      unfold stored. simpl. rewrite (bool_decide_eq_false_2 _ Hne).
      apply IH; assumption.
Qed.

(** After an upsert, its row is the one row under its request id. *)
Lemma stored_upsert_same (row : Run) (table : list Run) :
  NoDup (request_id <$> table) →
  stored (request_id row) (upsert row table) = [row].
Proof.
  intros Hnd. unfold upsert.
  destruct (first_by_request_id (request_id row) table) as [found|] eqn:Hf.
  - apply stored_update_row; [exact Hnd|]. rewrite Hf. eauto.
  - apply first_by_request_id_None in Hf. rewrite stored_app, Hf. simpl.
    unfold stored. simpl. rewrite bool_decide_eq_true_2 by done. reflexivity.
Qed.

(** An upsert leaves the rows under other request ids as they are. *)
Lemma stored_update_row_other (rid : string) (row : Run) (table : list Run) :
  rid ≠ request_id row →
  stored rid (update_row (request_id row) row table) = stored rid table.
Proof.
  intros Hne. induction table as [|r table IH]; [reflexivity|]. cbn [update_row].
  destruct (decide (request_id r = request_id row)) as [Heq|Hr].
  - unfold stored. simpl.
    rewrite !bool_decide_eq_false_2 by congruence. reflexivity.
  - unfold stored in *. simpl. rewrite IH. reflexivity.
Qed.

Lemma stored_upsert_other (rid : string) (row : Run) (table : list Run) :
  rid ≠ request_id row → stored rid (upsert row table) = stored rid table.
Proof.
  intros Hne. unfold upsert.
  destruct (first_by_request_id (request_id row) table).
  - apply stored_update_row_other. exact Hne.
  - rewrite stored_app. unfold stored at 2. simpl.
    rewrite bool_decide_eq_false_2 by congruence. apply app_nil_r.
Qed.

(** An upsert of the row that is stored changes nothing. *)
Lemma update_row_same (row : Run) (table : list Run) :
  NoDup (request_id <$> table) → row ∈ table →
  update_row (request_id row) row table = table.
Proof.
  induction table as [|r table IH]; intros Hnd Hin; [reflexivity|].
  rewrite fmap_cons in Hnd. apply NoDup_cons in Hnd as [Hr Hnd].
  cbn [update_row]. apply elem_of_cons in Hin as [->|Hin].
  - rewrite decide_True by done. reflexivity.
  - destruct (decide (request_id r = request_id row)) as [Heq|Hne].
    + exfalso. apply Hr. rewrite Heq. apply list_elem_of_fmap. eauto.
    + rewrite IH by assumption. reflexivity.
Qed.

Section Ingestion.
Context `{PyLib}.

(** The body of the loop refuses an element with the exception of
    [item_row], and otherwise upserts the row of the element and counts it
    as new or as updated. *)
Lemma ingest_item_refuses (st : ingest_state) (it : item) (e : exn) :
  item_row it = Raise e → ingest_item st it = Raise e.
Proof.
  unfold item_row, ingest_item.
  destruct (getitem it "request_id") as [rid|e1]; simpl; [|congruence].
  destruct (getitem it "started_at") as [started|e2]; simpl; [|congruence].
  destruct (fromisoformat started) as [dt|]; simpl; [|congruence].
  destruct (truthy (it !! "ended_at")) as [ended|]; simpl; [|congruence].
  destruct (fromisoformat ended) as [dt'|]; simpl; congruence.
Qed.

Lemma ingest_item_accepts (st : ingest_state) (it : item) (row : Run) :
  item_row it = Ok row →
  ingest_item st it
  = Ok (IngestState (upsert row (session st))
          (if first_by_request_id (request_id row) (session st) is None
           then S (added st) else added st)
          (if first_by_request_id (request_id row) (session st) is None
           then updated st else S (updated st))).
Proof.
  unfold item_row, ingest_item, upsert.
  destruct (getitem it "request_id") as [rid|e1]; simpl; [|done].
  destruct (getitem it "started_at") as [started|e2]; simpl; [|done].
  destruct (fromisoformat started) as [dt|]; simpl; [|done].
  destruct (truthy (it !! "ended_at")) as [ended|]; simpl.
  - destruct (fromisoformat ended) as [dt'|]; simpl; [|done].
    intros [= <-]. simpl. destruct (first_by_request_id rid (session st)); reflexivity.
  - intros [= <-]. simpl. destruct (first_by_request_id rid (session st)); reflexivity.
Qed.

Lemma item_row_request_id (it : item) (row : Run) :
  item_row it = Ok row → it !! "request_id" = Some (request_id row).
Proof.
  unfold item_row, getitem.
  destruct (it !! "request_id") as [rid|]; simpl; [|done].
  destruct (it !! "started_at") as [started|]; simpl; [|done].
  destruct (fromisoformat started) as [dt|]; simpl; [|done].
  destruct (truthy (it !! "ended_at")) as [ended|]; simpl.
  - destruct (fromisoformat ended) as [dt'|]; simpl; [|done]. by intros [= <-].
  - by intros [= <-].
Qed.

(** An element without [request_id] or without [started_at] is refused with
    the [KeyError] of the first of the two that is missing. *)
Lemma item_row_missing (it : item) :
  it !! "request_id" = None ∨ it !! "started_at" = None →
  item_row it
  = Raise (KeyError (if it !! "request_id" is None then "request_id" else "started_at")).
Proof.
  unfold item_row, getitem. intros Hm.
  destruct (it !! "request_id") as [rid|]; simpl; [|done].
  destruct Hm as [Hm|Hm]; [done|]. rewrite Hm. reflexivity.
Qed.

(** A batch of accepted elements runs to its end, keeps the unique
    constraint, and each element leaves its row under its request id until a
    later element of the same id. *)
Lemma ingest_loop_accepted (payload : list item) (st : ingest_state) :
  Forall accepted payload →
  ∃ st', ingest_loop st payload = Ok st'.
Proof.
  revert st. induction payload as [|it payload IH]; intros st Hp; simpl; [eauto|].
  apply Forall_cons in Hp as [[row Hrow] Hp].
  rewrite (ingest_item_accepts _ _ _ Hrow). simpl. apply IH. exact Hp.
Qed.

Lemma ingest_loop_app (p1 p2 : list item) (st : ingest_state) :
  ingest_loop st (p1 ++ p2) = st' ← ingest_loop st p1; ingest_loop st' p2.
Proof.
  revert st. induction p1 as [|it p1 IH]; intros st; simpl; [reflexivity|].
  destruct (ingest_item st it) as [st1|e]; simpl; [apply IH|reflexivity].
Qed.

Lemma ingest_loop_NoDup (payload : list item) (st st' : ingest_state) :
  NoDup (request_id <$> session st) →
  ingest_loop st payload = Ok st' →
  NoDup (request_id <$> session st').
Proof.
  revert st. induction payload as [|it payload IH]; intros st Hnd; simpl.
  - intros [= <-]. exact Hnd.
  - destruct (item_row it) as [row|e] eqn:Hrow.
    + rewrite (ingest_item_accepts _ _ _ Hrow). simpl. apply IH. simpl.
      apply upsert_NoDup. exact Hnd.
    + rewrite (ingest_item_refuses _ _ _ Hrow). simpl. discriminate.
Qed.

(** Elements of other request ids leave the rows under [rid] as they are. *)
Lemma ingest_loop_other (rid : string) (payload : list item) (st st' : ingest_state) :
  Forall (λ it : item, it !! "request_id" ≠ Some rid) payload →
  ingest_loop st payload = Ok st' →
  stored rid (session st') = stored rid (session st).
Proof.
  revert st. induction payload as [|it payload IH]; intros st Hp; simpl.
  - intros [= <-]. reflexivity.
  - apply Forall_cons in Hp as [Hit Hp].
    destruct (item_row it) as [row|e] eqn:Hrow.
    + rewrite (ingest_item_accepts _ _ _ Hrow). simpl. intros Hl.
      rewrite (IH _ Hp Hl). simpl. apply stored_upsert_other.
      intros ->. apply Hit. apply item_row_request_id. exact Hrow.
    + rewrite (ingest_item_refuses _ _ _ Hrow). simpl. discriminate.
Qed.

Lemma stored_elem (rid : string) (row : Run) (table : list Run) :
  stored rid table = [row] → row ∈ table ∧ request_id row = rid.
Proof.
  intros Hs. assert (Hin : In row (stored rid table)) by (rewrite Hs; left; reflexivity).
  apply List.filter_In in Hin as [Hin Hr]. apply bool_decide_eq_true in Hr.
  split; [apply list_elem_of_In; exact Hin|exact Hr].
Qed.

(** C7: in a batch that completes, an element whose request id also occurs
    earlier in the batch and in no later element leaves exactly one row
    under that id, with its own field values. *)
Theorem batch_last_write_wins (table : list Run) (items1 items2 items3 : list item)
    (a b : item) (row_b : Run) :
  NoDup (request_id <$> table) →
  Forall accepted (items1 ++ a :: items2 ++ b :: items3) →
  a !! "request_id" = b !! "request_id" →
  item_row b = Ok row_b →
  Forall (λ it : item, it !! "request_id" ≠ Some (request_id row_b)) items3 →
  ∃ table' n u,
    ingest_json table (JArray (items1 ++ a :: items2 ++ b :: items3))
    = (table', Ingested n u)
    ∧ stored (request_id row_b) table' = [row_b].
Proof.
  intros Hnd Hacc _ Hb H3.
  replace (items1 ++ a :: items2 ++ b :: items3)
    with ((items1 ++ a :: items2) ++ b :: items3) in *
    by (rewrite <- app_assoc; reflexivity).
  apply Forall_app in Hacc as [Hacc1 Hacc3].
  apply Forall_cons in Hacc3 as [_ Hacc3].
  destruct (ingest_loop_accepted _ (IngestState table 0 0) Hacc1) as [st1 H1].
  pose proof (ingest_loop_NoDup _ (IngestState table 0 0) _ Hnd H1) as Hnd1.
  pose proof (ingest_item_accepts st1 b row_b Hb) as H2.
  set (st2 := IngestState (upsert row_b (session st1))
                (if first_by_request_id (request_id row_b) (session st1) is None
                 then S (added st1) else added st1)
                (if first_by_request_id (request_id row_b) (session st1) is None
                 then updated st1 else S (updated st1))) in H2.
  destruct (ingest_loop_accepted _ st2 Hacc3) as [st3 Hl3].
  exists (session st3), (added st3), (updated st3). split.
  - unfold ingest_json. rewrite ingest_loop_app, H1. simpl. rewrite H2. simpl.
    rewrite Hl3. reflexivity.
  - rewrite (ingest_loop_other _ _ _ _ H3 Hl3). simpl.
    apply stored_upsert_same. exact Hnd1.
Qed.

(** C8: ingesting one accepted element twice, in two requests, leaves one
    row under its request id; the first request reports it as created when
    the id was not stored before, and the second reports it as updated, not
    created, and changes nothing. *)
Theorem ingest_twice_idempotent (table : list Run) (p : item) (row : Run) :
  NoDup (request_id <$> table) →
  item_row p = Ok row →
  let first := ingest_json table (JArray [p]) in
  let second := ingest_json first.1 (JArray [p]) in
  first.2 = (if bool_decide (stored (request_id row) table = [])
             then Ingested 1 0 else Ingested 0 1)
  ∧ second.2 = Ingested 0 1
  ∧ stored (request_id row) second.1 = [row]
  ∧ second.1 = first.1.
Proof.
  intros Hnd Hp first second.
  assert (H1 : first
    = (upsert row table,
       if bool_decide (stored (request_id row) table = [])
       then Ingested 1 0 else Ingested 0 1)).
  { subst first. unfold ingest_json. simpl.
    rewrite (ingest_item_accepts _ _ _ Hp). simpl.
    destruct (first_by_request_id (request_id row) table) as [found|] eqn:Hf.
    - rewrite bool_decide_eq_false_2; [reflexivity|].
      intros Hs. apply first_by_request_id_None in Hs. congruence.
    - rewrite bool_decide_eq_true_2; [reflexivity|].
      apply first_by_request_id_None. exact Hf. }
  pose proof (stored_upsert_same row table Hnd) as Hs.
  assert (H2 : second = (upsert row table, Ingested 0 1)).
  { subst second. rewrite H1. unfold ingest_json. simpl.
    rewrite (ingest_item_accepts _ _ _ Hp). simpl.
    destruct (first_by_request_id (request_id row) (upsert row table))
      as [found|] eqn:Hf.
    - unfold upsert at 1. rewrite Hf. f_equal.
      apply update_row_same; [apply upsert_NoDup; exact Hnd|].
      apply (stored_elem _ _ _ Hs).
    - apply first_by_request_id_None in Hf. rewrite Hs in Hf. discriminate. }
  rewrite H2, H1. simpl. auto.
Qed.

(** C9, amended: when an element lacks [request_id] or [started_at] and the
    elements before it are accepted, the batch fails at that element with
    the [KeyError] of the missing field, whatever follows it, and the stored
    table is left as it was before the request: the commit that follows the
    loop is not reached, so no write of the batch is stored. *)
Theorem batch_fails_at_missing_field (table : list Run) (items1 items2 : list item)
    (bad : item) :
  Forall accepted items1 →
  bad !! "request_id" = None ∨ bad !! "started_at" = None →
  ingest_json table (JArray (items1 ++ bad :: items2))
  = (table,
     ServerError
       (KeyError (if bad !! "request_id" is None then "request_id" else "started_at"))).
Proof.
  intros Hacc Hbad. unfold ingest_json.
  destruct (ingest_loop_accepted _ (IngestState table 0 0) Hacc) as [st1 H1].
  rewrite ingest_loop_app, H1. simpl.
  rewrite (ingest_item_refuses _ _ _ (item_row_missing bad Hbad)). reflexivity.
Qed.

End Ingestion.

Lemma batch_last_write_wins_witness :
  ∃ table' n u,
    @ingest_json readers [] (JArray ([] ++ item_r1 :: [] ++ item_r1_again :: []))
    = (table', Ingested n u)
    ∧ stored (request_id row_r1_again) table' = [row_r1_again].
Proof.
  apply (@batch_last_write_wins readers [] [] [] [] item_r1 item_r1_again row_r1_again).
  - apply NoDup_nil_2.
  - repeat apply Forall_cons_2; [exists row_r1|exists row_r1_again|apply Forall_nil_2];
      vm_compute; reflexivity.
  - vm_compute. reflexivity.
  - vm_compute. reflexivity.
  - apply Forall_nil_2.
Defined.

Lemma ingest_twice_idempotent_witness :
  (@ingest_json readers [] (JArray [item_r1])).2 = Ingested 1 0
  ∧ (@ingest_json readers (@ingest_json readers [] (JArray [item_r1])).1
       (JArray [item_r1])).2 = Ingested 0 1
  ∧ stored "r1"
      (@ingest_json readers (@ingest_json readers [] (JArray [item_r1])).1
         (JArray [item_r1])).1 = [row_r1]
  ∧ (@ingest_json readers (@ingest_json readers [] (JArray [item_r1])).1
       (JArray [item_r1])).1 = (@ingest_json readers [] (JArray [item_r1])).1.
Proof.
  apply (@ingest_twice_idempotent readers [] item_r1 row_r1).
  - apply NoDup_nil_2.
  - vm_compute. reflexivity.
Defined.

(** C9, as stated, fails: after a batch of an accepted element for r1 and an
    element without [started_at], no row is stored under r1. *)
Lemma failed_batch_stores_nothing :
  @item_row readers item_r1 = Ok row_r1
  ∧ @ingest_json readers [] (JArray [item_r1; item_no_start])
    = ([], ServerError (KeyError "started_at"))
  ∧ stored "r1" (@ingest_json readers [] (JArray [item_r1; item_no_start])).1 = [].
Proof. vm_compute. repeat split; reflexivity. Qed.

Lemma batch_fails_at_missing_field_witness :
  @ingest_json readers sample_table (JArray ([item_r1] ++ item_no_start :: [item_r1_again]))
  = (sample_table, ServerError (KeyError "started_at")).
Proof.
  apply (@batch_fails_at_missing_field readers sample_table [item_r1] [item_r1_again]
           item_no_start).
  - apply Forall_cons_2; [exists row_r1; vm_compute; reflexivity|apply Forall_nil_2].
  - right. vm_compute. reflexivity.
Defined.

(** * Further properties of the handlers *)

Example api_windows_sample :
  (λ e, (we_label e, we_range_label e)) <$> take 2 (api_windows sample_clock)
  = [("Sat, Oct 25", "Oct 25, 10:00 AM → Oct 26, 10:00 AM");
     ("Fri, Oct 24", "Oct 24, 10:00 AM → Oct 25, 10:00 AM")].
Proof. vm_compute. reflexivity. Qed.

(** ** Windows as a partition of time *)

(** A reference between the anchor of a date and the next anchor resolves to
    the window of that date. *)
Lemma get_window_bounds_between (clock : naive) (r date : Z) :
  mk_datetime date 10 0 1 ≤ r < mk_datetime (date + 1) 10 0 1 →
  get_window_bounds clock (Some (localize APP_TZ r)) = day_window date.
Proof.
  intros Hr. rewrite get_window_bounds_ref. simpl wall.
  pose proof (Z.div_mod r US_PER_DAY ltac:(rewrite US_PER_DAY_eq; lia)) as Hdm.
  pose proof (Z.mod_pos_bound r US_PER_DAY ltac:(rewrite US_PER_DAY_eq; lia)) as Hm.
  fold (toordinal r) in Hdm.
  assert (Hcase : (toordinal r = date ∧ mk_datetime (toordinal r) 10 0 1 ≤ r)
                  ∨ (toordinal r = date + 1 ∧ r < mk_datetime (toordinal r) 10 0 1)).
  { unfold mk_datetime in *. rewrite US_PER_DAY_eq in *. unfold US_PER_SECOND in *. lia. }
  assert (Hday : ∀ e, window_from (anchor e) = day_window e).
  { intros e. unfold window_from, day_window, anchor, aware_add, localize, instant.
    simpl. rewrite mk_datetime_add_days. f_equal. lia. }
  unfold aware_ge. destruct Hcase as [[He Hge]|[He Hlt]].
  - rewrite bool_decide_eq_true_2
      by (unfold instant, anchor, localize; simpl; lia).
    rewrite He. apply Hday.
  - rewrite bool_decide_eq_false_2
      by (unfold instant, anchor, localize; simpl; lia).
    rewrite anchor_pred, He. replace (date + 1 - 1) with date by lia. apply Hday.
Qed.

(** Every reference lies between two consecutive anchors. *)
Lemma between_anchors (r : Z) :
  ∃ date, mk_datetime date 10 0 1 ≤ r < mk_datetime (date + 1) 10 0 1.
Proof.
  pose proof (Z.div_mod r US_PER_DAY ltac:(rewrite US_PER_DAY_eq; lia)) as Hdm.
  pose proof (Z.mod_pos_bound r US_PER_DAY ltac:(rewrite US_PER_DAY_eq; lia)) as Hm.
  destruct (decide (mk_datetime (r / US_PER_DAY) 10 0 1 ≤ r)).
  - exists (r / US_PER_DAY). unfold mk_datetime in *. rewrite US_PER_DAY_eq in *.
    unfold US_PER_SECOND in *. lia.
  - exists (r / US_PER_DAY - 1). unfold mk_datetime in *. rewrite US_PER_DAY_eq in *.
    unfold US_PER_SECOND in *. lia.
Qed.

(** X1: the windows of the default resolution partition time.  Whatever
    the reference R, an instant T that lies in the window of R resolves to
    that same window, and R lies in its own window. *)
Theorem window_of_member (clock : naive) (r t : naive) :
  in_window (get_window_bounds clock (Some (localize APP_TZ r)))
    (instant (localize APP_TZ t)) = true →
  get_window_bounds clock (Some (localize APP_TZ t))
  = get_window_bounds clock (Some (localize APP_TZ r))
  ∧ in_window (get_window_bounds clock (Some (localize APP_TZ r)))
      (instant (localize APP_TZ r)) = true.
Proof.
  intros Hin. split; [|apply window_contains_reference].
  destruct (between_anchors r) as [date Hr].
  rewrite (get_window_bounds_between clock r date Hr) in *.
  apply get_window_bounds_between.
  apply in_window_spec in Hin.
  unfold day_window, anchor, instant, localize in Hin. simpl in Hin. lia.
Qed.

Lemma window_of_member_witness :
  get_window_bounds 0 (Some (localize APP_TZ (mk_datetime 739549 9 59 59)))
  = get_window_bounds 0 (Some (localize APP_TZ (mk_datetime 739548 12 0 0))).
Proof.
  apply (window_of_member 0 (mk_datetime 739548 12 0 0) (mk_datetime 739549 9 59 59)).
  vm_compute. reflexivity.
Defined.

(** Every window of the default resolution is the window of a date. *)
Lemma window_is_day_window (clock : naive) (ref_dt_local : option aware) :
  ∃ date, get_window_bounds clock ref_dt_local = day_window date.
Proof.
  assert (Hsome : ∀ R, ∃ date, get_window_bounds clock (Some R) = day_window date).
  { intros R. rewrite get_window_bounds_ref.
    assert (Hday : ∀ e, window_from (anchor e) = day_window e).
    { intros e. unfold window_from, day_window, anchor, aware_add, localize, instant.
      simpl. rewrite mk_datetime_add_days. f_equal. lia. }
    destruct (aware_ge R _).
    - eexists. apply Hday.
    - rewrite anchor_pred. eexists. apply Hday. }
  destruct ref_dt_local as [R|]; [apply Hsome|].
  change (get_window_bounds clock None)
    with (get_window_bounds clock (Some (datetime_now APP_TZ clock))).
  apply Hsome.
Qed.

(** X2: every window of the default resolution, whatever the reference and
    its zone, and also with no reference, starts at 04:30:01 UTC of some
    date and ends at 04:30:01 UTC of the next, 24 hours later; its local
    bounds are the two anchors of 10:00:01. *)
Theorem window_shape (clock : naive) (ref_dt_local : option aware) :
  ∃ date,
    get_window_bounds clock ref_dt_local = day_window date
    ∧ start_utc (get_window_bounds clock ref_dt_local) = mk_datetime date 4 30 1
    ∧ end_utc (get_window_bounds clock ref_dt_local) = mk_datetime (date + 1) 4 30 1
    ∧ end_utc (get_window_bounds clock ref_dt_local)
      - start_utc (get_window_bounds clock ref_dt_local) = timedelta_seconds 86400.
Proof.
  destruct (window_is_day_window clock ref_dt_local) as [date ->].
  exists date. split; [reflexivity|].
  unfold day_window, anchor, localize, instant, mk_datetime, timedelta_seconds,
    APP_TZ. simpl. rewrite US_PER_DAY_eq. unfold US_PER_SECOND. lia.
Qed.

(** ** The list of windows *)

Lemma time_of_anchor (date : Z) :
  wall (anchor date) mod US_PER_DAY = 36001 * US_PER_SECOND.
Proof.
  unfold anchor, localize, mk_datetime. simpl.
  rewrite Z.add_comm, Z.mod_add by (rewrite US_PER_DAY_eq; lia).
  apply Z.mod_small. rewrite US_PER_DAY_eq. unfold US_PER_SECOND. lia.
Qed.

Lemma strftime_I_M_p_anchor (date : Z) : strftime_I_M_p (wall (anchor date)) = "10:00 AM".
Proof.
  unfold strftime_I_M_p, hour_of, minute_of. rewrite time_of_anchor. reflexivity.
Qed.

(** X3: [api_windows] lists seven windows: the current one first, then the
    windows of the six dates before it, each ending where the one listed
    before it starts; every range label shows both bounds as 10:00 AM, the
    second of the anchor not being printed. *)
Theorem api_windows_consecutive (clock : naive) :
  length (api_windows clock) = 7%nat
  ∧ (∃ date,
       get_window_bounds clock None = day_window date
       ∧ ∀ i : nat, (i < 7)%nat →
           api_windows clock !! i
           = Some (WindowEntry (strftime_a_b_d (wall (anchor (date - Z.of_nat i))))
                     (range_label (anchor (date - Z.of_nat i))
                        (anchor (date - Z.of_nat i + 1)))
                     (mk_datetime (date - Z.of_nat i) 4 30 1)
                     (mk_datetime (date - Z.of_nat i + 1) 4 30 1)))
  ∧ (∀ date, strftime_I_M_p (wall (anchor date)) = "10:00 AM").
Proof.
  split; [unfold api_windows; rewrite length_fmap, length_seqZ; reflexivity|].
  split; [|apply strftime_I_M_p_anchor].
  destruct (between_anchors (wall (datetime_now APP_TZ clock))) as [date Hr].
  exists date. split.
  - change (get_window_bounds clock None)
      with (get_window_bounds clock
              (Some (localize APP_TZ (wall (datetime_now APP_TZ clock))))).
    apply get_window_bounds_between. exact Hr.
  - intros i Hi. unfold api_windows.
    rewrite list_lookup_fmap, lookup_seqZ_lt by lia. cbn [fmap option_fmap option_map].
    replace (aware_sub (datetime_now APP_TZ clock) (timedelta_days (0 + Z.of_nat i)))
      with (localize APP_TZ
              (wall (datetime_now APP_TZ clock) - timedelta_days (Z.of_nat i)))
      by (unfold aware_sub, localize, datetime_now, astimezone; simpl; do 3 f_equal; lia).
    rewrite (get_window_bounds_between clock _ (date - Z.of_nat i)).
    + unfold day_window. cbn [start_local end_local start_utc end_utc].
      do 2 f_equal.
      * unfold anchor, localize, instant, mk_datetime, APP_TZ. simpl.
        rewrite US_PER_DAY_eq. unfold US_PER_SECOND. lia.
      * unfold anchor, localize, instant, mk_datetime, APP_TZ. simpl.
        rewrite US_PER_DAY_eq. unfold US_PER_SECOND. lia.
    + replace (date - Z.of_nat i + 1) with (date + 1 - Z.of_nat i) by lia.
      unfold mk_datetime, timedelta_days in *. lia.
Qed.

(** ** Counts of the summary and of the home page *)

(** A group exists for the keys that occur, with the number of their rows. *)
Lemma group_count_lookup {K : Type} `{Countable K} (key : Run → K) (rows : list Run) (k : K) :
  group_count key rows !! k
  = match length (List.filter (λ r, bool_decide (key r = k)) rows) with
    | O => None
    | S n => Some (S n)
    end.
Proof.
  induction rows as [|r rows IH]; simpl.
  - apply lookup_empty.
  - destruct (decide (key r = k)) as [Hk|Hk].
    + rewrite (bool_decide_eq_true_2 _ Hk). subst k. rewrite lookup_insert_eq, IH. simpl.
      destruct (length _); reflexivity.
    + rewrite (bool_decide_eq_false_2 _ Hk), lookup_insert_ne by done. exact IH.
Qed.

Lemma group_count_default {K : Type} `{Countable K} (key : Run → K) (rows : list Run) (k : K) :
  default 0%nat (group_count key rows !! k)
  = length (List.filter (λ r, bool_decide (key r = k)) rows).
Proof. rewrite group_count_lookup. destruct (length _); reflexivity. Qed.

(** The counts of all the groups add up to the number of rows. *)
Lemma group_count_total {K : Type} `{Countable K} (key : Run → K) (rows : list Run) :
  sum_list_with snd (map_to_list (group_count key rows)) = length rows.
Proof.
  rewrite (sum_list_with_ext _ (λ kn : K * nat, if (λ _ : K, true) kn.1 then kn.2 else 0%nat))
    by reflexivity.
  rewrite (group_count_sum key (λ _, true)).
  induction rows as [|r rows IH]; simpl; [reflexivity|]. rewrite IH. reflexivity.
Qed.

Section Summary.
Context `{PyLib}.

(** X4: in the summary of any request, a status has an entry in
    [status_counts] exactly when a run of the window has it, never with a
    zero count, and the entry is the number of those runs; the entries add up
    to [total_runs]; and the counts of the [failures] list add up to the
    entry of FAILED. *)
Theorem api_summary_counts (clock : naive) (args : gmap string string)
    (table : list Run) (s : string) :
  let sm := api_summary clock args table in
  let q := runs_in_window (resolve_window_from_request clock args) table in
  sm_status_counts sm !! s
    = match length (List.filter (λ r, bool_decide (status r = s)) q) with
      | O => None
      | S n => Some (S n)
      end
  ∧ sum_list_with snd (map_to_list (sm_status_counts sm)) = sm_total_runs sm
  ∧ sum_list_with snd (sm_failures sm) = default 0%nat (sm_status_counts sm !! "FAILED").
Proof.
  intros sm q. subst sm. unfold api_summary. cbn [sm_status_counts sm_total_runs sm_failures].
  fold q. rewrite list_to_map_to_list. split; [apply group_count_lookup|].
  split; [apply group_count_total|].
  rewrite group_count_default.
  rewrite <- (group_count_total reason
                (List.filter (λ r, bool_decide (status r = "FAILED")) q)).
  generalize (map_to_list (group_count reason
                (List.filter (λ r, bool_decide (status r = "FAILED")) q))).
  intros l. induction l as [|x l IH]; simpl; [reflexivity|]. rewrite IH. reflexivity.
Qed.

End Summary.

(** Settles the tests on a status that the context decides. *)
Ltac decide_status :=
  repeat match goal with
  | |- context [bool_decide ?P] =>
      first [ rewrite (bool_decide_eq_true_2 P) by (first [assumption | tauto])
            | rewrite (bool_decide_eq_false_2 P)
                by (first [assumption | congruence | tauto]) ]
  end.

Lemma count_three_statuses (l : list Run) :
  length l
  = (length (List.filter (λ r, bool_decide (status r = "PASSED")) l)
     + length (List.filter (λ r, bool_decide (status r = "FAILED")) l)
     + length (List.filter (λ r, bool_decide (status r = "KILLED")) l)
     + length (List.filter
                 (λ r, bool_decide (status r ≠ "PASSED" ∧ status r ≠ "FAILED"
                                    ∧ status r ≠ "KILLED")) l))%nat.
Proof.
  induction l as [|r l IH]; simpl; [reflexivity|].
  destruct (decide (status r = "PASSED")) as [Hp|Hp];
    [|destruct (decide (status r = "FAILED")) as [Hf|Hf];
      [|destruct (decide (status r = "KILLED")) as [Hk|Hk]]];
    decide_status; simpl; lia.
Qed.

(** X5: on the home page the three counters are the numbers of runs of the
    current window that passed, failed and were killed; with the runs of any
    other status they add up to the total, so their sum never exceeds it. *)
Theorem index_counters (clock : naive) (table : list Run) :
  let page := index clock table in
  let q := runs_in_window (get_window_bounds clock None) table in
  ip_passed page = length (List.filter (λ r, bool_decide (status r = "PASSED")) q)
  ∧ ip_failed page = length (List.filter (λ r, bool_decide (status r = "FAILED")) q)
  ∧ ip_killed page = length (List.filter (λ r, bool_decide (status r = "KILLED")) q)
  ∧ ip_total_runs page
    = (ip_passed page + ip_failed page + ip_killed page
       + length (List.filter
                   (λ r, bool_decide (status r ≠ "PASSED" ∧ status r ≠ "FAILED"
                                      ∧ status r ≠ "KILLED")) q))%nat
  ∧ (ip_passed page + ip_failed page + ip_killed page ≤ ip_total_runs page)%nat.
Proof.
  intros page q. subst page. unfold index.
  cbn [ip_passed ip_failed ip_killed ip_total_runs]. fold q.
  rewrite list_to_map_to_list, !group_count_default.
  pose proof (count_three_statuses q) as Hq.
  repeat split; try reflexivity; lia.
Qed.

(** ** Ordered listings *)

Section SortBy.
Context {A : Type} (le : A → A → bool).

Lemma insert_by_Permutation (x : A) (l : list A) : insert_by le x l ≡ₚ x :: l.
Proof.
  induction l as [|y l IH]; simpl; [reflexivity|].
  destruct (le y x); [|reflexivity].
  rewrite IH. apply Permutation_swap.
Qed.

Lemma sort_by_Permutation (l : list A) : sort_by le l ≡ₚ l.
Proof.
  unfold sort_by. induction l as [|x l IH]; simpl; [reflexivity|].
  rewrite insert_by_Permutation, IH. reflexivity.
Qed.

Hypothesis le_total : ∀ a b, le a b = true ∨ le b a = true.
Hypothesis le_trans : ∀ a b c, le a b = true → le b c = true → le a c = true.

Lemma insert_by_StronglySorted (x : A) (l : list A) :
  StronglySorted (λ a b, le a b = true) l →
  StronglySorted (λ a b, le a b = true) (insert_by le x l).
Proof.
  induction 1 as [|y l Hl IH Hy]; simpl.
  - repeat constructor.
  - destruct (le y x) eqn:Hyx.
    + constructor; [exact IH|].
      rewrite insert_by_Permutation. constructor; assumption.
    + assert (Hxy : le x y = true) by (destruct (le_total x y); congruence).
      constructor; [constructor; assumption|].
      constructor; [exact Hxy|].
      eapply Forall_impl; [exact Hy|]. intros z Hz. simpl in Hz. eauto.
Qed.

Lemma sort_by_StronglySorted (l : list A) :
  StronglySorted (λ a b, le a b = true) (sort_by le l).
Proof.
  unfold sort_by. induction l as [|x l IH]; simpl; [constructor|].
  apply insert_by_StronglySorted. exact IH.
Qed.

End SortBy.

Lemma StronglySorted_weaken {A : Type} (R1 R2 : A → A → Prop) (l : list A) :
  (∀ a b, R1 a b → R2 a b) → StronglySorted R1 l → StronglySorted R2 l.
Proof.
  intros HR. induction 1 as [|x l Hl IH Hx]; constructor; [exact IH|].
  eapply Forall_impl; [exact Hx|]. intros y. apply HR.
Qed.

Lemma sort_started_at_desc (l : list Run) :
  StronglySorted recent_first (sort_by started_at_desc l).
Proof.
  apply (StronglySorted_weaken (λ a b, started_at_desc a b = true)).
  { intros a b Hab. unfold started_at_desc in Hab.
    apply bool_decide_eq_true in Hab. exact Hab. }
  apply sort_by_StronglySorted.
  - intros a b. unfold started_at_desc. rewrite !bool_decide_eq_true. lia.
  - intros a b c. unfold started_at_desc. rewrite !bool_decide_eq_true. lia.
Qed.

(** ** The listing of runs *)

Lemma filter_filter_and {A : Type} (p q : A → bool) (l : list A) :
  List.filter q (List.filter p l) = List.filter (λ x, p x && q x) l.
Proof.
  induction l as [|x l IH]; simpl; [reflexivity|].
  destruct (p x); simpl; [|exact IH]. destruct (q x); rewrite IH; reflexivity.
Qed.

Lemma filter_if_filter {A : Type} (param : option string) (test : string → A → bool)
    (q : list A) :
  filter_if param test q
  = List.filter (λ x, match truthy param with Some v => test v x | None => true end) q.
Proof.
  unfold filter_if. destruct (truthy param); [reflexivity|].
  induction q as [|x q IH]; simpl; [reflexivity|]. rewrite <- IH. reflexivity.
Qed.

Lemma fst_to_dict (l : list Run) : fst <$> List.map to_dict l = l.
Proof. induction l as [|r l IH]; simpl; [reflexivity|]. f_equal. exact IH. Qed.

Section Listing.
Context `{PyLib}.

(** The runs of [api_runs] before they are ordered. *)
Lemma api_runs_filters (clock : naive) (args : gmap string string) (table : list Run) :
  fst <$> api_runs clock args table
  = sort_by started_at_desc
      (List.filter (listed args (resolve_window_from_request clock args)) table).
Proof.
  unfold api_runs. rewrite fst_to_dict. f_equal.
  rewrite !filter_if_filter. unfold runs_in_window. rewrite !filter_filter_and.
  apply List.filter_ext. intros r. unfold listed, passes.
  assert (Hs : ∀ a v : string, bool_decide (Some a = Some v) = bool_decide (a = v))
    by (intros; apply bool_decide_ext; naive_solver).
  destruct (truthy (args !! "status")), (truthy (args !! "reason")),
    (truthy (args !! "scheduler")), (truthy (args !! "cloud"));
    rewrite ?Hs;
    repeat match goal with
           | |- context [bool_decide ?P] => destruct (bool_decide P)
           end;
    destruct (in_window _ _); reflexivity.
Qed.

(** X6: [api_runs] returns the stored runs that start in the window of the
    request and equal every filter given and not empty, each once per stored
    row, most recent first, each with the log URL of its request id. *)
Theorem api_runs_listing (clock : naive) (args : gmap string string) (table : list Run) :
  fst <$> api_runs clock args table
    ≡ₚ List.filter (listed args (resolve_window_from_request clock args)) table
  ∧ StronglySorted recent_first (fst <$> api_runs clock args table)
  ∧ Forall (λ e : Run * string, e.2 = DEFAULT_LOG_BASE_URL +:+ request_id e.1)
      (api_runs clock args table).
Proof.
  rewrite api_runs_filters. split; [apply sort_by_Permutation|].
  split; [apply sort_started_at_desc|].
  unfold api_runs. generalize (sort_by started_at_desc
    (filter_if (args !! "cloud") (λ v r, bool_decide (cloud r = Some v))
       (filter_if (args !! "scheduler") (λ v r, bool_decide (scheduler r = v))
          (filter_if (args !! "reason") (λ v r, bool_decide (reason r = Some v))
             (filter_if (args !! "status") (λ v r, bool_decide (status r = v))
                (runs_in_window (resolve_window_from_request clock args) table)))))).
  intros l. induction l as [|r l IH]; simpl; constructor; [reflexivity|exact IH].
Qed.

(** X7: a run without a reason, which the failures views show under
    "Unknown", is never listed by [api_runs] when a [reason] filter is
    given, whatever its value, "Unknown" included. *)
Theorem api_runs_reason_filter_skips_null (clock : naive) (args : gmap string string)
    (table : list Run) (v : string) (r : Run) :
  truthy (args !! "reason") = Some v →
  reason r = None →
  r ∉ fst <$> api_runs clock args table.
Proof.
  intros Hv Hr Hin. rewrite api_runs_filters, sort_by_Permutation in Hin.
  apply list_elem_of_In, List.filter_In in Hin as [_ Hl].
  unfold listed, passes in Hl. rewrite Hv, Hr in Hl.
  rewrite (bool_decide_eq_false_2 (None = Some v)) in Hl by discriminate.
  rewrite !andb_false_r in Hl. simpl in Hl. discriminate.
Qed.

End Listing.

Lemma api_runs_reason_filter_skips_null_witness :
  run_r1 ∉ fst <$> @api_runs readers sample_clock
                     {[ "day" := "2025-10-24"; "reason" := "Unknown" ]} sample_table.
Proof.
  apply (@api_runs_reason_filter_skips_null readers sample_clock
           {[ "day" := "2025-10-24"; "reason" := "Unknown" ]} sample_table "Unknown" run_r1).
  - vm_compute. reflexivity.
  - reflexivity.
Defined.

(** ** The details page *)

Section Details.
Context `{PyLib}.

(** X8: when [start] or [end] is absent or empty, [details] does not read
    the other one and renders the runs of the current window, most recent
    first; when both are given and [strptime] refuses [start] in the format
    [%Y-%m-%d %H:%M:%S], the request ends with the uncaught [ValueError],
    whatever [end] is. *)
Theorem details_window_parameters (clock : naive) (args : gmap string string)
    (table : list Run) :
  match truthy (args !! "start"), truthy (args !! "end") with
  | Some s, Some e =>
      strptime s "%Y-%m-%d %H:%M:%S" = None →
      details clock args table = Raise ValueError
  | _, _ =>
      details clock args table
      = Ok (DetailsPage
              (sort_by started_at_desc
                 (runs_in_window (get_window_bounds clock None) table))
              (start_local (get_window_bounds clock None))
              (end_local (get_window_bounds clock None)))
  end.
Proof.
  destruct (truthy (args !! "start")) as [s|] eqn:Hs.
  1: destruct (truthy (args !! "end")) as [e|] eqn:He.
  1: { intros Hp. exact (details_malformed_start clock args table s e Hs He Hp). }
  all: unfold details; rewrite Hs, ?He; reflexivity.
Qed.

(** X9: when [details] renders, its rows are the stored runs that start in
    a half-open range, most recent first.  With [start] and [end] both given,
    the range is their two datetimes read as local time (the UTC bounds are
    5 h 30 min earlier); otherwise it is the current window.  In both cases
    the bounds shown on the page are those of the current window. *)
Theorem details_rows (clock : naive) (args : gmap string string) (table : list Run)
    (page : details_page) :
  details clock args table = Ok page →
  dp_start_local page = start_local (get_window_bounds clock None)
  ∧ dp_end_local page = end_local (get_window_bounds clock None)
  ∧ StronglySorted recent_first (dp_rows page)
  ∧ ∃ lo hi,
      dp_rows page ≡ₚ List.filter (λ r, bool_decide (lo ≤ started_at r < hi)) table
      ∧ match truthy (args !! "start"), truthy (args !! "end") with
        | Some s, Some e =>
            strptime s "%Y-%m-%d %H:%M:%S" = Some (lo + APP_TZ)
            ∧ strptime e "%Y-%m-%d %H:%M:%S" = Some (hi + APP_TZ)
        | _, _ =>
            lo = start_utc (get_window_bounds clock None)
            ∧ hi = end_utc (get_window_bounds clock None)
        end.
Proof.
  unfold details.
  assert (Hrange : ∀ lo hi : naive,
    List.filter (λ r, in_range (Some lo) (Some hi) (started_at r)) table
    = List.filter (λ r, bool_decide (lo ≤ started_at r < hi)) table).
  { intros lo hi. apply List.filter_ext. intros r. unfold in_range.
    repeat case_bool_decide; simpl; try reflexivity; lia. }
  assert (Hdone : ∀ lo hi : naive,
    StronglySorted recent_first
      (sort_by started_at_desc
         (List.filter (λ r, in_range (Some lo) (Some hi) (started_at r)) table))
    ∧ sort_by started_at_desc
        (List.filter (λ r, in_range (Some lo) (Some hi) (started_at r)) table)
      ≡ₚ List.filter (λ r, bool_decide (lo ≤ started_at r < hi)) table).
  { intros lo hi. split; [apply sort_started_at_desc|].
    rewrite sort_by_Permutation, Hrange. reflexivity. }
  destruct (truthy (args !! "start")) as [s|] eqn:Hs.
  1: destruct (truthy (args !! "end")) as [e|] eqn:He.
  1: { unfold parse_dt_local. rewrite Hs, He.
       destruct (strptime s "%Y-%m-%d %H:%M:%S") as [ds|] eqn:Hds; simpl; [|discriminate].
       destruct (strptime e "%Y-%m-%d %H:%M:%S") as [de|] eqn:Hde; simpl; [|discriminate].
       intros [= <-]. simpl. destruct (Hdone (instant (localize APP_TZ ds) + UTC)
                                              (instant (localize APP_TZ de) + UTC)) as [Hsorted Hperm].
       split; [reflexivity|]. split; [reflexivity|]. split; [exact Hsorted|].
       eexists _, _. split; [exact Hperm|].
       unfold instant, localize, UTC. simpl. split; f_equal; lia. }
  all: simpl; intros [= <-]; simpl.
  all: destruct (Hdone (start_utc (get_window_bounds clock None))
                   (end_utc (get_window_bounds clock None))) as [Hsorted Hperm].
  all: split; [reflexivity|]; split; [reflexivity|]; split; [exact Hsorted|].
  all: eexists _, _; split; [exact Hperm|]; split; reflexivity.
Qed.

End Details.

Lemma details_rows_witness :
  dp_start_local (DetailsPage [run_r2] (start_local (get_window_bounds sample_clock None))
                    (end_local (get_window_bounds sample_clock None)))
  = start_local (get_window_bounds sample_clock None).
Proof.
  assert (Hd : @details readers sample_clock
                 {[ "start" := "2025-10-25 00:00:00"; "end" := "2025-10-25 01:00:00" ]}
                 sample_table
               = Ok (DetailsPage [run_r2]
                       (start_local (get_window_bounds sample_clock None))
                       (end_local (get_window_bounds sample_clock None))))
    by (vm_compute; reflexivity).
  exact (proj1 (@details_rows readers sample_clock _ sample_table _ Hd)).
Defined.

(** ** Failures by reason *)

(** Grouping by appending puts under each key the images of its elements,
    in their order, and no key without an element. *)
Lemma group_append_lookup {A B : Type} (key : A → string) (f : A → B) (l : list A)
    (out : gmap string (list B)) (k : string) :
  foldl (λ out r, <[key r := default [] (out !! key r) ++ [f r]]> out) out l !! k
  = match List.filter (λ r, bool_decide (key r = k)) l with
    | [] => out !! k
    | rs => Some (default [] (out !! k) ++ List.map f rs)
    end.
Proof.
  revert out. induction l as [|r l IH]; intros out; simpl; [reflexivity|].
  rewrite IH. destruct (decide (key r = k)) as [Hk|Hk].
  - rewrite (bool_decide_eq_true_2 _ Hk). subst k. rewrite lookup_insert_eq. simpl.
    destruct (List.filter _ l); simpl; [reflexivity|].
    rewrite <- app_assoc. reflexivity.
  - rewrite (bool_decide_eq_false_2 _ Hk), lookup_insert_ne by done. reflexivity.
Qed.

Lemma StronglySorted_filter {A : Type} (R : A → A → Prop) (p : A → bool) (l : list A) :
  StronglySorted R l → StronglySorted R (List.filter p l).
Proof.
  induction 1 as [|x l Hl IH Hx]; simpl; [constructor|].
  destruct (p x); [|exact IH]. constructor; [exact IH|].
  apply Forall_forall. intros y Hy. apply list_elem_of_In, List.filter_In in Hy as [Hy _].
  rewrite Forall_forall in Hx. apply Hx, list_elem_of_In, Hy.
Qed.

Lemma StronglySorted_on {A : Type} (R1 R2 : A → A → Prop) (P : A → Prop) (l : list A) :
  (∀ a b, P a → P b → R1 a b → R2 a b) →
  Forall P l → StronglySorted R1 l → StronglySorted R2 l.
Proof.
  intros HR HP. induction 1 as [|x l Hl IH Hx]; [constructor|].
  apply Forall_cons in HP as [HPx HP]. constructor; [apply IH, HP|].
  rewrite Forall_forall in *. intros y Hy. apply HR; auto.
Qed.

(** The order of strings of the model is a strict total order. *)
Lemma ltb_lt (x y : string) : String.ltb x y = true ↔ OrderedTypeEx.String_as_OT.lt x y.
Proof.
  unfold String.ltb. rewrite <- OrderedTypeEx.String_as_OT.cmp_lt.
  unfold OrderedTypeEx.String_as_OT.cmp. destruct (String.compare x y); split; congruence.
Qed.

Lemma ltb_total (x y : string) : x ≠ y → String.ltb x y = true ∨ String.ltb y x = true.
Proof.
  intros Hne. unfold String.ltb. rewrite (String.compare_antisym y x).
  destruct (String.compare x y) eqn:Hc; simpl; auto.
  apply String.compare_eq_iff in Hc. contradiction.
Qed.

Lemma ltb_trans (x y z : string) :
  String.ltb x y = true → String.ltb y z = true → String.ltb x z = true.
Proof.
  rewrite !ltb_lt. apply OrderedTypeEx.String_as_OT.lt_trans.
Qed.

Lemma ltb_irrefl (x : string) : String.ltb x x = false.
Proof.
  destruct (String.ltb x x) eqn:Hx; [|reflexivity].
  apply ltb_lt in Hx. exfalso.
  exact (OrderedTypeEx.String_as_OT.lt_not_eq _ _ Hx eq_refl).
Qed.

Lemma reason_order_total (a b : Run) :
  reason_then_started_desc a b = true ∨ reason_then_started_desc b a = true.
Proof.
  unfold reason_then_started_desc, started_at_desc.
  destruct (reason a) as [x|], (reason b) as [y|]; auto.
  - destruct (decide (x = y)) as [->|Hne].
    + rewrite decide_True by done. rewrite !bool_decide_eq_true. lia.
    + rewrite (decide_False (P := y = x)) by congruence. apply ltb_total, Hne.
  - rewrite !bool_decide_eq_true. lia.
Qed.

Lemma reason_order_trans (a b c : Run) :
  reason_then_started_desc a b = true →
  reason_then_started_desc b c = true →
  reason_then_started_desc a c = true.
Proof.
  unfold reason_then_started_desc, started_at_desc.
  destruct (reason a) as [x|], (reason b) as [y|], (reason c) as [z|];
    try (rewrite ?bool_decide_eq_true; first [congruence | lia]).
  destruct (decide (x = y)) as [->|Hxy], (decide (y = z)) as [->|Hyz].
  - rewrite ?decide_True by done. rewrite !bool_decide_eq_true. lia.
  - rewrite ?decide_False by done. auto.
  - rewrite ?decide_False by done. auto.
  - intros H1 H2. pose proof (ltb_trans _ _ _ H1 H2) as H3.
    destruct (decide (x = z)) as [->|Hxz]; [|exact H3].
    rewrite ltb_irrefl in H3. discriminate.
Qed.

Lemma filter_Permutation {A : Type} (p : A → bool) (l l' : list A) :
  l ≡ₚ l' → List.filter p l ≡ₚ List.filter p l'.
Proof.
  induction 1 as [|x l l' Hl IH|x y l|l l' l'' H1 IH1 H2 IH2]; simpl.
  - reflexivity.
  - destruct (p x); [constructor|]; exact IH.
  - destruct (p x), (p y); try reflexivity. apply Permutation_swap.
  - etransitivity; eassumption.
Qed.

Lemma or_else_named (value : option string) (k : string) :
  or_else value "Unknown" = k → k ≠ "Unknown" → value = Some k.
Proof.
  unfold or_else, truthy. destruct value as [s|]; simpl; [|congruence].
  destruct (decide (s = EmptyString)); simpl; congruence.
Qed.

Section Failures.
Context `{PyLib}.

(** X10: [api_failures] has a bucket for a reason exactly when a failed run
    of the window has it (a run with no reason or an empty one counting under
    "Unknown"); a bucket is never empty and lists each of those runs once;
    and a bucket other than "Unknown" lists them most recent first. *)
Theorem api_failures_buckets (clock : naive) (args : gmap string string)
    (table : list Run) (k : string) :
  let failed :=
    List.filter (λ r, bool_decide (status r = "FAILED"))
      (runs_in_window (resolve_window_from_request clock args) table) in
  match api_failures clock args table !! k with
  | None =>
      List.filter (λ r, bool_decide (or_else (reason r) "Unknown" = k)) failed = []
  | Some bucket =>
      bucket ≠ []
      ∧ fst <$> bucket
        ≡ₚ List.filter (λ r, bool_decide (or_else (reason r) "Unknown" = k)) failed
      ∧ (k ≠ "Unknown" → StronglySorted recent_first (fst <$> bucket))
  end.
Proof.
  intros failed. unfold api_failures. fold failed.
  rewrite (group_append_lookup (λ r, or_else (reason r) "Unknown") to_dict).
  rewrite lookup_empty.
  pose proof (filter_Permutation
                (λ r, bool_decide (or_else (reason r) "Unknown" = k)) _ _
                (sort_by_Permutation reason_then_started_desc failed)) as Hperm.
  pose proof (StronglySorted_filter _
                (λ r, bool_decide (or_else (reason r) "Unknown" = k)) _
                (sort_by_StronglySorted reason_then_started_desc
                   reason_order_total reason_order_trans failed)) as Hsorted.
  assert (Hall : Forall (λ r, or_else (reason r) "Unknown" = k)
                   (List.filter (λ r, bool_decide (or_else (reason r) "Unknown" = k))
                      (sort_by reason_then_started_desc failed))).
  { apply Forall_forall. intros r Hr.
    apply list_elem_of_In, List.filter_In in Hr as [_ Hr].
    apply bool_decide_eq_true in Hr. exact Hr. }
  destruct (List.filter _ (sort_by reason_then_started_desc failed)) as [|r rs] eqn:Hrs.
  - symmetry in Hperm. apply Permutation_nil_r in Hperm. exact Hperm.
  - cbn [default app]. rewrite fst_to_dict. split; [discriminate|].
    split; [exact Hperm|]. intros Hk.
    apply (StronglySorted_on (λ a b, reason_then_started_desc a b = true) recent_first
             (λ r, reason r = Some k)); [| |exact Hsorted].
    + intros a b Ha Hb. unfold reason_then_started_desc, started_at_desc, recent_first.
      rewrite Ha, Hb, decide_True by done. apply bool_decide_eq_true.
    + eapply Forall_impl; [exact Hall|]. intros x Hx. simpl in Hx.
      apply or_else_named; assumption.
Qed.

End Failures.

(** ** Counts by cloud *)

Lemma group_count_is_Some {K : Type} `{Countable K} (key : Run → K) (rows : list Run) (k : K) :
  is_Some (group_count key rows !! k) ↔ ∃ r, r ∈ rows ∧ key r = k.
Proof.
  rewrite group_count_lookup.
  destruct (List.filter (λ r, bool_decide (key r = k)) rows) as [|r rs] eqn:Hf; simpl.
  - split; [intros [? ?]; discriminate|]. intros (r & Hr & Hk). exfalso.
    assert (Hin : In r (List.filter (λ r, bool_decide (key r = k)) rows)).
    { apply List.filter_In. split; [apply list_elem_of_In, Hr|].
      apply bool_decide_eq_true. exact Hk. }
    rewrite Hf in Hin. destruct Hin.
  - split; [|eauto]. intros _.
    assert (Hin : In r (List.filter (λ r, bool_decide (key r = k)) rows))
      by (rewrite Hf; left; reflexivity).
    apply List.filter_In in Hin as [Hin Hk]. apply bool_decide_eq_true in Hk.
    exists r. split; [apply list_elem_of_In, Hin|exact Hk].
Qed.

(** The name under which a cloud is shown is the cloud itself unless the
    cloud is absent, empty or "unknown". *)
Lemma or_else_unknown_named (value : option string) (c : string) :
  c ≠ "unknown" → c ≠ EmptyString →
  or_else value "unknown" = c ↔ value = Some c.
Proof.
  intros Hu He. unfold or_else, truthy. destruct value as [v|]; simpl.
  - destruct (decide (v = EmptyString)) as [->|Hv]; simpl; split; congruence.
  - split; congruence.
Qed.

(** The loop of [api_by_cloud] over any rows: the entry of a named cloud and
    a status is the count of a row of that cloud and status when there is
    one, and is left as it was otherwise. *)
Lemma by_cloud_loop (rows : list (option string * string * nat))
    (out : gmap string (gmap string nat)) (c s : string) :
  c ≠ "unknown" → c ≠ EmptyString →
  (∃ n, (Some c, s, n) ∈ rows
        ∧ foldl by_cloud_add out rows !! c ≫= (λ m, m !! s) = Some n)
  ∨ ((∀ n, (Some c, s, n) ∉ rows)
     ∧ foldl by_cloud_add out rows !! c ≫= (λ m, m !! s) = out !! c ≫= (λ m, m !! s)).
Proof.
  intros Hu He. revert out.
  induction rows as [|[[cl st] cnt] rows IH]; intros out; cbn [foldl].
  - right. split; [intros n; apply not_elem_of_nil|reflexivity].
  - destruct (IH (by_cloud_add out (cl, st, cnt))) as [(n & Hin & Hres)|[Hnone Hres]].
    + left. exists n. split; [apply elem_of_cons; right; exact Hin|exact Hres].
    + destruct (decide (cl = Some c ∧ st = s)) as [[-> ->]|Hne].
      * left. exists cnt. split; [apply elem_of_cons; left; reflexivity|].
        rewrite Hres. unfold by_cloud_add.
        rewrite (proj2 (or_else_unknown_named (Some c) c Hu He) eq_refl).
        rewrite lookup_insert_eq. simpl. apply lookup_insert_eq.
      * right. split.
        -- intros n Hn. apply elem_of_cons in Hn as [[= <- <- <-]|Hn]; [tauto|].
           exact (Hnone n Hn).
        -- rewrite Hres. unfold by_cloud_add.
           destruct (decide (or_else cl "unknown" = c)) as [Hc|Hc].
           ++ apply (or_else_unknown_named cl c Hu He) in Hc as ->.
              rewrite (proj2 (or_else_unknown_named (Some c) c Hu He) eq_refl).
              rewrite lookup_insert_eq. simpl.
              rewrite lookup_insert_ne by (intros ->; tauto).
              destruct (out !! c); reflexivity.
           ++ rewrite lookup_insert_ne by done. reflexivity.
Qed.

Section ByCloud.
Context `{PyLib}.

(** X11: for a cloud with a name other than "unknown", [api_by_cloud] gives
    each status the number of the runs of the window stored with that cloud
    and that status, and no entry when there is none. *)
Theorem api_by_cloud_named (clock : naive) (args : gmap string string)
    (table : list Run) (c s : string) :
  c ≠ "unknown" → c ≠ EmptyString →
  api_by_cloud clock args table !! c ≫= (λ m, m !! s)
  = match length (List.filter (λ r, bool_decide ((cloud r, status r) = (Some c, s)))
                    (runs_in_window (resolve_window_from_request clock args) table)) with
    | O => None
    | S n => Some (S n)
    end.
Proof.
  intros Hu He. unfold api_by_cloud.
  rewrite <- (group_count_lookup (λ r, (cloud r, status r))).
  set (m := group_count (λ r, (cloud r, status r)) _).
  change (foldl by_cloud_add ∅ (map_to_list m) !! c ≫= (λ m, m !! s) = m !! (Some c, s)).
  destruct (by_cloud_loop (map_to_list m) ∅ c s Hu He) as [(n & Hin & Hres)|[Hnone Hres]].
  - rewrite Hres. symmetry. apply elem_of_map_to_list. exact Hin.
  - rewrite Hres, lookup_empty. simpl.
    destruct (m !! (Some c, s)) as [n|] eqn:Hm; [|reflexivity].
    exfalso. apply (Hnone n). apply elem_of_map_to_list. exact Hm.
Qed.

End ByCloud.

Lemma api_by_cloud_named_witness :
  @api_by_cloud readers sample_clock {[ "day" := "2025-10-24" ]} sample_table
    !! "blr-cloud4" ≫= (λ m, m !! "PASSED")
  = match length (List.filter
                    (λ r, bool_decide ((cloud r, status r) = (Some "blr-cloud4", "PASSED")))
                    (runs_in_window
                       (@resolve_window_from_request readers sample_clock
                          {[ "day" := "2025-10-24" ]}) sample_table)) with
    | O => None
    | S n => Some (S n)
    end.
Proof.
  apply (@api_by_cloud_named readers sample_clock {[ "day" := "2025-10-24" ]}
           sample_table "blr-cloud4" "PASSED"); discriminate.
Defined.

(** ** The clouds of the trend *)

Lemma trend_add_is_Some (clouds : gmap string (gmap string bucket))
    (row : string * option string * string * nat) (c : string) :
  is_Some (trend_add clouds row !! c)
  ↔ is_Some (clouds !! c) ∨ or_else row.1.1.2 "unknown" = c.
Proof.
  destruct row as [[[run_date cl] st] n]. unfold trend_add. simpl.
  destruct (decide (or_else cl "unknown" = c)) as [Hc|Hc].
  - rewrite Hc, lookup_insert_eq. split; eauto.
  - rewrite lookup_insert_ne by done. tauto.
Qed.

Lemma trend_loop_is_Some (rows : list (string * option string * string * nat))
    (clouds : gmap string (gmap string bucket)) (c : string) :
  is_Some (foldl trend_add clouds rows !! c)
  ↔ is_Some (clouds !! c) ∨ ∃ row, row ∈ rows ∧ or_else row.1.1.2 "unknown" = c.
Proof.
  revert clouds. induction rows as [|row rows IH]; intros clouds; cbn [foldl].
  - split; [auto|]. intros [?|(row & Hrow & _)]; [assumption|].
    apply elem_of_nil in Hrow. destruct Hrow.
  - rewrite IH, trend_add_is_Some. split.
    + intros [[?|?]|(row' & Hin & Hc)]; [auto| |].
      * right. exists row. split; [apply elem_of_cons; auto|assumption].
      * right. exists row'. split; [apply elem_of_cons; auto|assumption].
    + intros [?|(row' & Hin & Hc)]; [auto|].
      apply elem_of_cons in Hin as [->|Hin]; [auto|]. right. eauto.
Qed.

Section TrendClouds.
Context `{PyLib}.

(** X12: the trend has a series for blr-cloud4 and for blr-cloud5 in every
    answer, and for any other name exactly when a stored run of the trend
    window is shown under it (its cloud, or "unknown" for a run with no
    cloud or an empty one). *)
Theorem cloud_trend_clouds (clock : naive) (args : gmap string string)
    (table : list Run) (c : string) :
  is_Some (tr_clouds (api_cloud_trend clock args table) !! c)
  ↔ c = "blr-cloud4" ∨ c = "blr-cloud5"
    ∨ ∃ r, r ∈ table
           ∧ in_window (trend_window clock (trend_days args)) (started_at r) = true
           ∧ or_else (cloud r) "unknown" = c.
Proof.
  unfold api_cloud_trend. cbn [tr_clouds]. rewrite lookup_fmap, fmap_is_Some.
  rewrite trend_loop_is_Some.
  assert (Hinit : is_Some ((list_to_map ((λ c, (c, ∅)) <$> default_clouds)
                             : gmap string (gmap string bucket)) !! c)
                  ↔ c = "blr-cloud4" ∨ c = "blr-cloud5").
  { unfold default_clouds. simpl.
    destruct (decide ("blr-cloud4" = c)) as [<-|H4].
    - rewrite lookup_insert_eq. split; eauto.
    - rewrite lookup_insert_ne by done.
      destruct (decide ("blr-cloud5" = c)) as [<-|H5].
      + rewrite lookup_insert_eq. split; eauto.
      + rewrite lookup_insert_ne, lookup_empty by done.
        split; [intros [? ?]; discriminate|]. intros [?|?]; congruence. }
  rewrite Hinit.
  assert (Hrows : (∃ row, row ∈ trend_rows (trend_window clock (trend_days args)) table
                          ∧ or_else row.1.1.2 "unknown" = c)
                  ↔ ∃ r, r ∈ table
                         ∧ in_window (trend_window clock (trend_days args))
                             (started_at r) = true
                         ∧ or_else (cloud r) "unknown" = c).
  { unfold trend_rows. split.
    - intros ([k n] & Hin & Hc). apply elem_of_map_to_list in Hin.
      assert (Hs : is_Some (group_count
                     (λ r, (sql_date (started_at r), cloud r, status r))
                     (runs_in_window (trend_window clock (trend_days args)) table) !! k))
        by eauto.
      apply group_count_is_Some in Hs as (r & Hr & Hk).
      apply list_elem_of_In, List.filter_In in Hr as [Hr Hw].
      exists r. split; [apply list_elem_of_In, Hr|]. split; [exact Hw|].
      subst k. exact Hc.
    - intros (r & Hr & Hw & Hc).
      assert (Hs : is_Some (group_count
                     (λ r, (sql_date (started_at r), cloud r, status r))
                     (runs_in_window (trend_window clock (trend_days args)) table)
                     !! (sql_date (started_at r), cloud r, status r))).
      { apply group_count_is_Some. exists r. split; [|reflexivity].
        apply list_elem_of_In, List.filter_In. split; [apply list_elem_of_In, Hr|exact Hw]. }
      destruct Hs as [n Hn].
      exists (sql_date (started_at r), cloud r, status r, n).
      split; [apply elem_of_map_to_list; exact Hn|exact Hc]. }
  rewrite Hrows. tauto.
Qed.

End TrendClouds.

(** ** Ingestion: what a batch does to the table *)

Lemma upsert_ids (row : Run) (table : list Run) :
  request_id <$> upsert row table
  = (request_id <$> table)
    ++ (if first_by_request_id (request_id row) table is None then [request_id row] else []).
Proof.
  unfold upsert. destruct (first_by_request_id (request_id row) table).
  - rewrite update_row_ids, app_nil_r. reflexivity.
  - rewrite fmap_app. reflexivity.
Qed.

Section IngestionBatch.
Context `{PyLib}.

(** The loop never removes or moves a row: the request ids of the session
    grow at the end by one id per element counted as new, and every element
    is counted once, as new or as updated. *)
Lemma ingest_loop_ids (payload : list item) (st st' : ingest_state) :
  ingest_loop st payload = Ok st' →
  ∃ new,
    request_id <$> session st' = (request_id <$> session st) ++ new
    ∧ (added st' = added st + length new)%nat
    ∧ (added st' + updated st' = added st + updated st + length payload)%nat.
Proof.
  revert st. induction payload as [|it payload IH]; intros st; simpl.
  - intros [= <-]. exists []. rewrite app_nil_r. simpl. split; [reflexivity|lia].
  - destruct (item_row it) as [row|e] eqn:Hrow.
    + rewrite (ingest_item_accepts _ _ _ Hrow). simpl. intros Hl.
      destruct (IH _ Hl) as (new & Hids & Hadd & Hsum). simpl in *.
      rewrite upsert_ids in Hids.
      destruct (first_by_request_id (request_id row) (session st)).
      * exists new. rewrite app_nil_r in Hids. split; [exact Hids|]. lia.
      * exists (request_id row :: new). rewrite <- app_assoc in Hids.
        split; [exact Hids|]. simpl. lia.
    + rewrite (ingest_item_refuses _ _ _ Hrow). simpl. discriminate.
Qed.

(** X13: a batch that is ingested keeps the request ids of the table
    distinct, removes and moves no row, appends one row per element reported
    as new, reports every element once, as new or as updated, and leaves the
    rows of every request id that the batch does not name as they were. *)
Theorem ingest_json_invariants (table table' : list Run) (payload : list item)
    (n u : nat) :
  NoDup (request_id <$> table) →
  ingest_json table (JArray payload) = (table', Ingested n u) →
  NoDup (request_id <$> table')
  ∧ (∃ new, request_id <$> table' = (request_id <$> table) ++ new ∧ length new = n)
  ∧ length table' = (length table + n)%nat
  ∧ (n + u = length payload)%nat
  ∧ (∀ rid, Forall (λ it : item, it !! "request_id" ≠ Some rid) payload →
            stored rid table' = stored rid table).
Proof.
  intros Hnd. unfold ingest_json.
  destruct (ingest_loop (IngestState table 0 0) payload) as [st|e] eqn:Hl; [|discriminate].
  intros [= <- <- <-].
  destruct (ingest_loop_ids _ _ _ Hl) as (new & Hids & Hadd & Hsum). simpl in *.
  split; [exact (ingest_loop_NoDup _ (IngestState table 0 0) _ Hnd Hl)|].
  split; [exists new; split; [exact Hids|lia]|].
  split.
  - rewrite <- (length_fmap request_id (session st)), Hids, length_app, length_fmap. lia.
  - split; [lia|]. intros rid Hrid.
    exact (ingest_loop_other rid _ (IngestState table 0 0) _ Hrid Hl).
Qed.

(** X14: a batch is all or nothing.  Either every element is accepted and
    the batch is ingested, or the response is the exception of the first
    element that is refused, whatever follows it, and the stored table is
    the one before the request. *)
Theorem ingest_json_all_or_nothing (table : list Run) (payload : list item) :
  (Forall accepted payload
   ∧ ∃ table' n u, ingest_json table (JArray payload) = (table', Ingested n u))
  ∨ (∃ items1 bad items2 e,
       payload = items1 ++ bad :: items2
       ∧ Forall accepted items1
       ∧ item_row bad = Raise e
       ∧ ingest_json table (JArray payload) = (table, ServerError e)).
Proof.
  assert (Hsplit : Forall accepted payload
                   ∨ ∃ items1 bad items2 e,
                       payload = items1 ++ bad :: items2
                       ∧ Forall accepted items1 ∧ item_row bad = Raise e).
  { induction payload as [|it payload IH]; [left; constructor|].
    destruct (item_row it) as [row|e] eqn:Hrow.
    - destruct IH as [Hall|(items1 & bad & items2 & e & -> & Hacc & Hbad)].
      + left. constructor; [exists row; exact Hrow|exact Hall].
      + right. exists (it :: items1), bad, items2, e.
        split; [reflexivity|]. split; [|exact Hbad].
        constructor; [exists row; exact Hrow|exact Hacc].
    - right. exists [], it, payload, e. split; [reflexivity|]. split; [constructor|exact Hrow]. }
  destruct Hsplit as [Hall|(items1 & bad & items2 & e & -> & Hacc & Hbad)].
  - left. split; [exact Hall|].
    destruct (ingest_loop_accepted _ (IngestState table 0 0) Hall) as [st Hst].
    exists (session st), (added st), (updated st). unfold ingest_json. rewrite Hst. reflexivity.
  - right. exists items1, bad, items2, e. split; [reflexivity|]. split; [exact Hacc|].
    split; [exact Hbad|].
    unfold ingest_json.
    destruct (ingest_loop_accepted _ (IngestState table 0 0) Hacc) as [st1 H1].
    rewrite ingest_loop_app, H1. simpl.
    rewrite (ingest_item_refuses _ _ _ Hbad). reflexivity.
Qed.

End IngestionBatch.

Lemma ingest_json_invariants_witness :
  NoDup (request_id <$> [row_r1_again]).
Proof.
  assert (Hi : @ingest_json readers [] (JArray [item_r1; item_r1_again])
               = ([row_r1_again], Ingested 1 1)) by (vm_compute; reflexivity).
  exact (proj1 (@ingest_json_invariants readers [] _ _ 1%nat 1%nat NoDup_nil_2 Hi)).
Defined.

(** ** Ingestion: batches in sequence, and stored timestamps *)

Section IngestionSequence.
Context `{PyLib}.

(** The counters do not steer the loop: started with other counts, it does
    the same to the session and adds the same numbers. *)
Lemma ingest_loop_counters (payload : list item) (rows : list Run) (a u : nat) :
  ingest_loop (IngestState rows a u) payload
  = st ← ingest_loop (IngestState rows 0 0) payload;
    Ok (IngestState (session st) (a + added st) (u + updated st)).
Proof.
  revert rows a u. induction payload as [|it payload IH]; intros rows a u; simpl.
  - rewrite !Nat.add_0_r. reflexivity.
  - destruct (item_row it) as [row|e] eqn:Hrow.
    + rewrite !(ingest_item_accepts _ _ _ Hrow). simpl.
      rewrite IH. symmetry. rewrite IH.
      destruct (ingest_loop (IngestState (upsert row rows) 0 0) payload) as [st|e]; simpl;
        [|reflexivity].
      destruct (first_by_request_id (request_id row) rows); simpl; f_equal; f_equal; lia.
    + rewrite !(ingest_item_refuses _ _ _ Hrow). reflexivity.
Qed.

(** X15: ingesting a batch of accepted elements in one request gives the
    table that ingesting its first part and then the rest in two requests
    gives, and reports the sums of their counts. *)
Theorem ingest_json_app (table : list Run) (items1 items2 : list item) :
  Forall accepted (items1 ++ items2) →
  ∃ table1 n1 u1 table2 n2 u2,
    ingest_json table (JArray items1) = (table1, Ingested n1 u1)
    ∧ ingest_json table1 (JArray items2) = (table2, Ingested n2 u2)
    ∧ ingest_json table (JArray (items1 ++ items2))
      = (table2, Ingested (n1 + n2) (u1 + u2)).
Proof.
  intros Hacc. apply Forall_app in Hacc as [Hacc1 Hacc2].
  destruct (ingest_loop_accepted _ (IngestState table 0 0) Hacc1) as [st1 H1].
  destruct (ingest_loop_accepted _ (IngestState (session st1) 0 0) Hacc2) as [st2 H2].
  exists (session st1), (added st1), (updated st1),
         (session st2), (added st2), (updated st2).
  unfold ingest_json. rewrite H1, H2. split; [reflexivity|]. split; [reflexivity|].
  rewrite ingest_loop_app, H1. simpl.
  destruct st1 as [rows1 a1 u1]. rewrite ingest_loop_counters. simpl in *.
  rewrite H2. reflexivity.
Qed.

(** X16: ingestion stores the fields of [started_at] as they are written.
    For a text with an offset the value stored is the wall clock of that
    offset, not the UTC instant: it is later than the instant
    [parse_iso_utc] reads from the same text by exactly the offset, and the
    two agree only for a text without offset or with offset zero. *)
Theorem ingest_keeps_wall_clock (it : item) (row : Run) (text : string) :
  item_row it = Ok row →
  it !! "started_at" = Some text →
  text ≠ EmptyString →
  ∃ dt,
    fromisoformat text = Some dt
    ∧ started_at row = db_datetime dt
    ∧ parse_iso_utc (Some text)
      = Some (started_at row - match dt with NaiveDT _ => 0 | AwareDT a => utcoffset a end).
Proof.
  unfold item_row, getitem. intros Hrow Htext Hne.
  destruct (it !! "request_id") as [rid|]; simpl in Hrow; [|discriminate].
  rewrite Htext in Hrow. simpl in Hrow.
  destruct (fromisoformat text) as [dt|] eqn:Hdt; simpl in Hrow; [|discriminate].
  assert (Hs : started_at row = db_datetime dt).
  { destruct (truthy (it !! "ended_at")) as [ended|]; simpl in Hrow.
    - destruct (fromisoformat ended); simpl in Hrow; [|discriminate].
      injection Hrow as <-. reflexivity.
    - injection Hrow as <-. reflexivity. }
  exists dt. split; [reflexivity|]. split; [exact Hs|].
  unfold parse_iso_utc, truthy. rewrite decide_False by exact Hne. rewrite Hdt, Hs.
  destruct dt as [n|a]; simpl; f_equal; unfold instant, UTC; lia.
Qed.

End IngestionSequence.

Lemma ingest_json_app_witness :
  ∃ table1 n1 u1 table2 n2 u2,
    @ingest_json readers sample_table (JArray [item_r1]) = (table1, Ingested n1 u1)
    ∧ @ingest_json readers table1 (JArray [item_r1_again]) = (table2, Ingested n2 u2)
    ∧ @ingest_json readers sample_table (JArray ([item_r1] ++ [item_r1_again]))
      = (table2, Ingested (n1 + n2) (u1 + u2)).
Proof.
  apply (@ingest_json_app readers sample_table [item_r1] [item_r1_again]).
  repeat apply Forall_cons_2; [exists row_r1|exists row_r1_again|apply Forall_nil_2];
    vm_compute; reflexivity.
Defined.

Lemma ingest_keeps_wall_clock_witness :
  ∃ dt,
    read_iso "2025-10-24T10:30:00+05:30" = Some dt
    ∧ mk_datetime 739548 10 30 0 = db_datetime dt
    ∧ @parse_iso_utc readers (Some "2025-10-24T10:30:00+05:30")
      = Some (mk_datetime 739548 10 30 0
              - match dt with NaiveDT _ => 0 | AwareDT a => utcoffset a end).
Proof.
  apply (@ingest_keeps_wall_clock readers
           {[ "request_id" := "r9"; "started_at" := "2025-10-24T10:30:00+05:30" ]}
           (mkRun "r9" "BLR-NSP-SCHEDULER1" None (mk_datetime 739548 10 30 0) None
              "FAILED" None None None)
           "2025-10-24T10:30:00+05:30").
  - vm_compute. reflexivity.
  - vm_compute. reflexivity.
  - discriminate.
Defined.

(** ** The trend window and the date of a run *)

(** X17: the date under which the trend groups a stored run is the local
    date of its start, except for a run that starts before 05:30 local time
    (18:30 UTC or later): that run is grouped under the day before its local
    date. *)
Theorem cloud_trend_date_key (started_at : naive) :
  sql_date started_at
  = isodate (local_date started_at
             - (if bool_decide (mk_datetime 0 18 30 0 ≤ started_at mod US_PER_DAY)
                then 1 else 0)).
Proof.
  unfold sql_date, local_date. f_equal.
  unfold toordinal, astimezone, localize, instant, UTC, APP_TZ. simpl.
  pose proof (Z.div_mod started_at US_PER_DAY ltac:(rewrite US_PER_DAY_eq; lia)) as Hdm.
  pose proof (Z.mod_pos_bound started_at US_PER_DAY ltac:(rewrite US_PER_DAY_eq; lia)) as Hm.
  set (q := started_at / US_PER_DAY) in *. set (m := started_at mod US_PER_DAY) in *.
  unfold mk_datetime. rewrite US_PER_DAY_eq in *. unfold US_PER_SECOND in *.
  case_bool_decide.
  - assert (Hq : (started_at - 0 + (5 * 3600 + 30 * 60) * 1000000) / 86400000000 = q + 1).
    { symmetry. apply (Z.div_unique _ _ _ (m + 19800000000 - 86400000000)); lia. }
    rewrite Hq. lia.
  - assert (Hq : (started_at - 0 + (5 * 3600 + 30 * 60) * 1000000) / 86400000000 = q).
    { symmetry. apply (Z.div_unique _ _ _ (m + 19800000000)); lia. }
    rewrite Hq. lia.
Qed.

(** X18: the trend window of D days runs from local midnight D-1 days
    before today to the next local midnight, that is from 18:30 UTC to 18:30
    UTC, D days later, and holds the current instant. *)
Theorem trend_window_shape (clock : naive) (days : Z) :
  1 ≤ days →
  let w := trend_window clock days in
  start_utc w = mk_datetime (today clock - days) 18 30 0
  ∧ end_utc w = mk_datetime (today clock) 18 30 0
  ∧ end_utc w - start_utc w = timedelta_days days
  ∧ wall (end_local w) = mk_datetime (today clock + 1) 0 0 0
  ∧ in_window w clock = true.
Proof.
  intros Hd w. subst w. unfold trend_window, today.
  cbn [start_utc end_utc end_local].
  set (t := toordinal (wall (datetime_now APP_TZ clock))).
  assert (Ht : t * US_PER_DAY ≤ clock + APP_TZ < (t + 1) * US_PER_DAY).
  { subst t. unfold toordinal, datetime_now, astimezone, localize, instant, UTC. simpl.
    pose proof (Z.div_mod (clock - 0 + APP_TZ) US_PER_DAY
                  ltac:(rewrite US_PER_DAY_eq; lia)) as Hdm.
    pose proof (Z.mod_pos_bound (clock - 0 + APP_TZ) US_PER_DAY
                  ltac:(rewrite US_PER_DAY_eq; lia)) as Hm.
    lia. }
  rewrite in_window_spec. cbn [start_utc end_utc].
  unfold replace_tzinfo_none, astimezone, aware_add, aware_sub, localize, instant,
    mk_datetime, timedelta_days, UTC, APP_TZ in *. simpl.
  rewrite US_PER_DAY_eq in *. unfold US_PER_SECOND in *. lia.
Qed.

Lemma trend_window_shape_witness :
  start_utc (trend_window sample_clock 7) = mk_datetime (today sample_clock - 7) 18 30 0.
Proof.
  exact (proj1 (trend_window_shape sample_clock 7 ltac:(lia))).
Defined.

(** ** Choosing a listed window *)

Section RoundTrip.
Context `{PyLib}.

(** X19: a window of the default resolution is recovered from its two UTC
    bounds.  A request whose [start] and [end] read as the UTC bounds of such
    a window resolves to that window, local bounds included, at any time:
    this is how an entry of [api_windows] selects its window. *)
Theorem resolve_listed_window (clock clock' : naive) (ref_dt_local : option aware)
    (args : gmap string string) :
  let w := get_window_bounds clock ref_dt_local in
  iso_instant (args !! "start") = Some (start_utc w) →
  iso_instant (args !! "end") = Some (end_utc w) →
  resolve_window_from_request clock' args = w.
Proof.
  intros w Hs He. rewrite resolve_window_eq_spec. unfold resolve_spec. rewrite Hs, He.
  destruct (window_is_day_window clock ref_dt_local) as [date Hw].
  subst w. rewrite Hw. unfold explicit_window, day_window, anchor, astimezone, localize,
    instant, UTC. simpl. f_equal; f_equal; lia.
Qed.

End RoundTrip.

Lemma resolve_listed_window_witness :
  @resolve_window_from_request readers 0
    {[ "start" := "2025-10-25T04:30:01"; "end" := "2025-10-26T04:30:01" ]}
  = get_window_bounds sample_clock None.
Proof.
  apply (@resolve_listed_window readers sample_clock 0 None
           {[ "start" := "2025-10-25T04:30:01"; "end" := "2025-10-26T04:30:01" ]});
    vm_compute; reflexivity.
Defined.

(** ** Seeding demo data *)

Example seed_demo_sample :
  let seeded := seed_demo sample_clock (λ n, n) [] in
  seeded.2 = 110%nat
  ∧ request_id <$> take 2 seeded.1 = ["1761373800"; "1761373801"]
  ∧ (λ r, (cloud r, status r)) <$> seeded.1 !! 4%nat = Some (Some "blr-cloud4", "PASSED")
  ∧ (λ r, (cloud r, status r)) <$> seeded.1 !! 55%nat = Some (Some "blr-cloud5", "FAILED").
Proof. vm_compute. repeat split; reflexivity. Qed.

Lemma seed_demo_step_found (start : aware) (rid_base : Z) (rand : nat → nat)
    (session : list Run) (added : nat) (i : Z) :
  is_Some (first_by_request_id (pretty (rid_base + i)) session) →
  seed_demo_step start rid_base rand (session, added) i = (session, added).
Proof. intros [r Hr]. unfold seed_demo_step. rewrite Hr. reflexivity. Qed.

Lemma seed_demo_step_new (start : aware) (rid_base : Z) (rand : nat → nat)
    (session : list Run) (added : nat) (i : Z) :
  first_by_request_id (pretty (rid_base + i)) session = None →
  seed_demo_step start rid_base rand (session, added) i
  = (session ++ [demo_run start rid_base rand i], S added).
Proof.
  intros Hr. unfold seed_demo_step, demo_run. rewrite Hr.
  destruct (random_choice _ DEMO_OUTCOMES _) as [[st re] sub]. reflexivity.
Qed.

Lemma demo_run_ok (start : aware) (rid_base : Z) (rand : nat → nat) (i : Z) :
  0 ≤ i < 110 → seeded_ok (window_from start) (demo_run start rid_base rand i).
Proof.
  intros Hi. unfold seeded_ok, demo_run. cbn [started_at cloud status reason subreason ended_at].
  split; [|split; [|split]].
  - apply in_window_spec. unfold window_from, replace_tzinfo_none, astimezone, aware_add,
      instant, timedelta_minutes, timedelta_days, UTC. simpl.
    rewrite US_PER_DAY_eq. unfold US_PER_SECOND. lia.
  - case_bool_decide; auto.
  - unfold random_choice.
    destruct (nth _ DEMO_OUTCOMES _) as [[st re] sub] eqn:Hn. simpl.
    rewrite <- Hn. apply list_elem_of_In, nth_In. apply Nat.mod_upper_bound. discriminate.
  - eexists. split; [reflexivity|].
    unfold random_randint, timedelta_minutes, US_PER_SECOND.
    pose proof (Z.mod_pos_bound (Z.of_nat (rand (2 * Z.to_nat i + 1)%nat)) (120 - 20 + 1)
                  ltac:(lia)) as Hm.
    lia.
Qed.

(** The loop of [seed_demo] over any indices below 110. *)
Lemma seed_demo_loop (start : aware) (rid_base : Z) (rand : nat → nat)
    (indices : list Z) (session : list Run) (added : nat) :
  Forall (λ i, 0 ≤ i < 110) indices →
  ∃ new,
    foldl (seed_demo_step start rid_base rand) (session, added) indices
    = (session ++ new, (added + length new)%nat)
    ∧ (length new ≤ length indices)%nat
    ∧ Forall (seeded_ok (window_from start)) new
    ∧ (NoDup (request_id <$> session) → NoDup (request_id <$> session ++ new)).
Proof.
  revert session added. induction indices as [|i indices IH]; intros session added Hall.
  - exists []. simpl. rewrite app_nil_r, Nat.add_0_r.
    split; [reflexivity|]. split; [lia|]. split; [constructor|auto].
  - apply Forall_cons in Hall as [Hi Hall]. cbn [foldl].
    destruct (first_by_request_id (pretty (rid_base + i)) session) as [r|] eqn:Hf.
    + rewrite seed_demo_step_found by (rewrite Hf; eauto).
      destruct (IH session added Hall) as (new & Hres & Hlen & Hok & Hnd).
      exists new. split; [exact Hres|]. split; [simpl; lia|]. split; assumption.
    + rewrite (seed_demo_step_new _ _ _ _ _ _ Hf).
      destruct (IH (session ++ [demo_run start rid_base rand i]) (S added) Hall)
        as (new & Hres & Hlen & Hok & Hnd).
      exists (demo_run start rid_base rand i :: new).
      rewrite Hres, <- app_assoc. simpl.
      split; [f_equal; lia|]. split; [lia|].
      split; [constructor; [apply demo_run_ok; exact Hi|exact Hok]|].
      intros Hs. replace (session ++ demo_run start rid_base rand i :: new)
        with ((session ++ [demo_run start rid_base rand i]) ++ new)
        by (rewrite <- app_assoc; reflexivity).
      apply Hnd. rewrite fmap_app. apply NoDup_app. split; [exact Hs|]. split.
      * intros k Hk Hk'. simpl in Hk'. apply list_elem_of_singleton in Hk'. subst k.
        apply first_by_request_id_None, stored_nil_not_elem in Hf. contradiction.
      * simpl. apply NoDup_singleton.
Qed.

Lemma Forall_seqZ_range (n : Z) : Forall (λ i, 0 ≤ i < n) (seqZ 0 n).
Proof.
  apply Forall_forall. intros i Hi. apply elem_of_seqZ in Hi. lia.
Qed.

(** X20: [seed_demo] removes and changes no stored run and adds at most 110;
    every run it adds starts inside the window that is current at that
    moment, on blr-cloud4 or blr-cloud5, with one of the nine listed
    outcomes and an end 20 to 120 minutes after its start; and the request
    ids stay distinct. *)
Theorem seed_demo_in_window (clock : naive) (rand : nat → nat) (table : list Run) :
  ∃ new,
    seed_demo clock rand table = (table ++ new, length new)
    ∧ (length new ≤ 110)%nat
    ∧ Forall (seeded_ok (get_window_bounds clock None)) new
    ∧ (NoDup (request_id <$> table) → NoDup (request_id <$> table ++ new)).
Proof.
  unfold seed_demo.
  change (get_window_bounds clock None)
    with (get_window_bounds clock (Some (datetime_now APP_TZ clock))).
  rewrite get_window_bounds_ref. unfold anchor.
  set (start := if aware_ge _ _ then _ else _).
  destruct (seed_demo_loop start (unix_seconds clock) rand (seqZ 0 110) table 0
              (Forall_seqZ_range 110)) as (new & Hres & Hlen & Hok & Hnd).
  exists new. rewrite Hres. split; [reflexivity|].
  split; [rewrite length_seqZ in Hlen; lia|]. split; assumption.
Qed.

Lemma seed_demo_loop_fresh (start : aware) (rid_base : Z) (rand : nat → nat)
    (indices : list Z) (session : list Run) (added : nat) :
  NoDup indices →
  Forall (λ i, pretty (rid_base + i) ∉ request_id <$> session) indices →
  foldl (seed_demo_step start rid_base rand) (session, added) indices
  = (session ++ (demo_run start rid_base rand <$> indices), (added + length indices)%nat).
Proof.
  revert session added. induction indices as [|i indices IH]; intros session added Hnd Hfresh.
  - simpl. rewrite app_nil_r, Nat.add_0_r. reflexivity.
  - apply NoDup_cons in Hnd as [Hi Hnd]. apply Forall_cons in Hfresh as [Hfi Hfresh].
    cbn [foldl]. rewrite seed_demo_step_new
      by (apply first_by_request_id_None, not_elem_stored_nil; exact Hfi).
    rewrite IH; [| exact Hnd |].
    + rewrite fmap_cons, <- app_assoc. simpl. f_equal. lia.
    + apply Forall_forall. intros j Hj. rewrite Forall_forall in Hfresh.
      rewrite fmap_app. intros Hin. apply elem_of_app in Hin as [Hin|Hin].
      * exact (Hfresh j Hj Hin).
      * simpl in Hin. apply list_elem_of_singleton in Hin.
        apply (inj pretty) in Hin. assert (j = i) by lia. subst j. contradiction.
Qed.

(** X21: when none of the 110 request ids that [seed_demo] derives from the
    clock is stored yet, it adds 110 runs, in order, the first 55 on
    blr-cloud4 and the other 55 on blr-cloud5. *)
Theorem seed_demo_fresh (clock : naive) (rand : nat → nat) (table : list Run) :
  Forall (λ i, pretty (unix_seconds clock + i) ∉ request_id <$> table) (seqZ 0 110) →
  (seed_demo clock rand table).2 = 110%nat
  ∧ ∃ new,
      (seed_demo clock rand table).1 = table ++ new
      ∧ cloud <$> new
        = replicate 55 (Some "blr-cloud4") ++ replicate 55 (Some "blr-cloud5")
      ∧ request_id <$> new = (λ i, pretty (unix_seconds clock + i)) <$> seqZ 0 110.
Proof.
  intros Hfresh. unfold seed_demo.
  rewrite seed_demo_loop_fresh; [|apply NoDup_seqZ|exact Hfresh].
  cbn [fst snd]. split; [rewrite length_seqZ; reflexivity|].
  eexists. split; [reflexivity|]. split.
  - rewrite <- list_fmap_compose.
    transitivity
      ((λ i, Some (if bool_decide (i < 110 / 2) then "blr-cloud4" else "blr-cloud5"))
         <$> seqZ 0 110).
    + apply list_fmap_ext. intros ? ? ?. reflexivity.
    + vm_compute. reflexivity.
  - rewrite <- list_fmap_compose. apply list_fmap_ext. intros ? ? ?. reflexivity.
Qed.

Lemma seed_demo_fresh_witness : (seed_demo sample_clock (λ n, n) []).2 = 110%nat.
Proof.
  refine (proj1 (seed_demo_fresh sample_clock (λ n, n) [] _)).
  apply Forall_forall. intros i _. apply not_elem_of_nil.
Defined.

(** ** The home page and the summary *)

Section HomePage.
Context `{PyLib}.

(** X22: for a request without [start] and without [day], the summary API
    returns what the home page shows: the same window, the same total, the
    same list of failure reasons, and the counts of PASSED, FAILED and KILLED
    that the page shows, zero standing for a status without entry. *)
Theorem index_matches_summary (clock : naive) (args : gmap string string)
    (table : list Run) :
  args !! "start" = None →
  args !! "day" = None →
  let sm := api_summary clock args table in
  let page := index clock table in
  sm_window sm = (ip_start_local page, ip_end_local page)
  ∧ sm_total_runs sm = ip_total_runs page
  ∧ sm_failures sm = ip_failures page
  ∧ default 0%nat (sm_status_counts sm !! "PASSED") = ip_passed page
  ∧ default 0%nat (sm_status_counts sm !! "FAILED") = ip_failed page
  ∧ default 0%nat (sm_status_counts sm !! "KILLED") = ip_killed page.
Proof.
  intros Hs Hd sm page. subst sm page. unfold api_summary, index.
  rewrite (resolve_window_falls_back clock args).
  - cbn [sm_window sm_total_runs sm_failures sm_status_counts ip_start_local ip_end_local
           ip_total_runs ip_failures ip_passed ip_failed ip_killed].
    repeat split; reflexivity.
  - left. unfold iso_instant. rewrite Hs. reflexivity.
  - unfold calendar_date. rewrite Hd. reflexivity.
Qed.

End HomePage.

Lemma index_matches_summary_witness :
  sm_total_runs (@api_summary readers sample_clock {[ "status" := "PASSED" ]} sample_table)
  = ip_total_runs (index sample_clock sample_table).
Proof.
  exact (proj1 (proj2 (@index_matches_summary readers sample_clock {[ "status" := "PASSED" ]}
                         sample_table eq_refl eq_refl))).
Defined.
